(** * ShopZone order backend (server.js): a shallow embedding of the record store

    The program keeps four collections in memory (orders, products, banners
    and the order-id counter), mirrors each one in a JSON file under
    [data/], and serves them through Express routes.  This development
    embeds the store: the module-level variables, [initializeStorage], the
    four [save*] functions and the route handlers, and proves or refutes
    the statements of the specification about them.

    Modelling choices.
    - JavaScript values are the inductive [value].  A finite number is
      an integer (the program copies, compares and serialises the
      numbers of a request, which a fraction goes through as an integer
      does, and -0 is 0 as it is for [===] and for [JSON.stringify]);
      an infinite one (which [JSON.parse] returns for a literal that
      overflows, such as 1e999) is [VInf]; the only arithmetic of the
      program, [orderIdCounter++], is the addition of doubles,
      [increment], exact from -2^53 to 2^53 - 1 and rounding beyond.
    - An object is an association list in property order; reading a
      missing property yields [VUndef], assigning an existing property
      keeps its position.
    - Effects are a state-and-exception monad [M] over [world], a pair of
      the in-memory variables and the four files.
    - What the environment decides (does a write succeed, what time is
      it) is an explicit argument of the handler that asks for it.
    - The data model types the files: [orders.json], when it parses,
      holds an array of objects, and [counter.json] an object whose
      [orderIdCounter] is an integer or is missing; products and banners
      are any JSON value.  A file that is not there is [Absent]; one that
      cannot be read or parsed is [Corrupt]; both take the [catch] branch
      of their loader. *)

From Stdlib Require Import ZArith List String Bool Lia Sorted DecimalString.
From Stdlib Require DecimalPos DecimalZ.
Import ListNotations.
Open Scope string_scope.
Open Scope list_scope.
Open Scope Z_scope.

(** ** JavaScript values *)

Set Warnings "-register-all".

Inductive value : Type :=
| VUndef
| VNull
| VBool (b : bool)
| VNum (n : Z)
| VStr (s : string)
| VArr (elems : list value)
| VObj (props : list (string * value))
| VInf (negative : bool).

Definition obj : Type := list (string * value).

(** [o[k]] on an object: the first binding of [k], [undefined] when there
    is none. *)
Fixpoint lookup (k : string) (o : obj) : value :=
  match o with
  | [] => VUndef
  | (k', v) :: rest => if String.eqb k k' then v else lookup k rest
  end.

(** [v.k] for a value that is neither [null] nor [undefined], and for the
    property names the program reads (none of which is an index or
    [length] of a string or array, nor inherited from a prototype). *)
Definition get (v : value) (k : string) : value :=
  match v with
  | VObj o => lookup k o
  | _ => VUndef
  end.

(** [o.k = v]: an existing property keeps its place, a new one goes last. *)
Fixpoint assign (k : string) (v : value) (o : obj) : obj :=
  match o with
  | [] => [(k, v)]
  | (k', v') :: rest =>
      if String.eqb k k' then (k, v) :: rest else (k', v') :: assign k v rest
  end.

(** ToBoolean. *)
Definition truthy (v : value) : bool :=
  match v with
  | VUndef | VNull => false
  | VBool b => b
  | VNum n => negb (n =? 0)
  | VStr s => negb (String.eqb s "")
  | VArr _ | VObj _ | VInf _ => true
  end.

(** [a || b]. *)
Definition or_else (a b : value) : value := if truthy a then a else b.

Definition nullish (v : value) : bool :=
  match v with
  | VUndef | VNull => true
  | _ => false
  end.

(** [v === n] against a number [n]; [None] is NaN, equal to nothing. *)
Definition strict_eq_num (v : value) (n : option Z) : bool :=
  match v, n with
  | VNum m, Some n' => m =? n'
  | _, _ => false
  end.

(** ** JSON documents

    [jsonOf v] is what [JSON.parse (JSON.stringify v)] gives back: a
    property whose value is [undefined] is dropped, an [undefined] array
    element becomes [null], and so does an infinite number wherever it
    stands. *)
Definition json_props (f : value -> value) : obj -> obj :=
  fix go (o : obj) : obj :=
    match o with
    | [] => []
    | (k, x) :: rest =>
        match x with
        | VUndef => go rest
        | _ => (k, f x) :: go rest
        end
    end.

Definition json_elem (f : value -> value) (x : value) : value :=
  match x with
  | VUndef => VNull
  | _ => f x
  end.

Fixpoint jsonOf (v : value) : value :=
  match v with
  | VArr l => VArr (map (json_elem jsonOf) l)
  | VObj o => VObj (json_props jsonOf o)
  | VInf _ => VNull
  | _ => v
  end.

Definition jsonOfObj (o : obj) : obj := json_props jsonOf o.

(** A value that [JSON.stringify] writes as it is: no [undefined] and no
    infinite number anywhere. *)
Fixpoint is_json (v : value) : bool :=
  match v with
  | VUndef | VInf _ => false
  | VArr l => forallb is_json l
  | VObj o => forallb (fun kv => let '(_, x) := kv in is_json x) o
  | _ => true
  end.

(** Is the value written as [null]?  It is when it is null (or
    undefined inside an array) or an infinite number. *)
Definition savedAsNull (v : value) : bool := nullish (jsonOf v).

(** A value that [JSON.parse] can return, as a request body is: no
    [undefined] anywhere. *)
Fixpoint isParsed (v : value) : bool :=
  match v with
  | VUndef => false
  | VArr l => forallb isParsed l
  | VObj o => forallb (fun kv => let '(_, x) := kv in isParsed x) o
  | _ => true
  end.

(** ** Numbers and strings

    [n + 1] on doubles, for an integer [n] that is a double: exact from
    -2^53 to 2^53 - 1; from there to 2^54 in size the doubles are the
    even integers and the tie goes to the one whose half is even; beyond,
    the sum rounds back to [n]. *)
Definition increment (n : Z) : Z :=
  if (- 2 ^ 53 <=? n) && (n <? 2 ^ 53) then n + 1
  else if (Z.abs n <? 2 ^ 54) && Z.odd (n / 2) then n + 2
  else n.

(** The integers on which [increment] adds one. *)
Definition safeCounter (n : Z) : Prop := - 2 ^ 53 <= n < 2 ^ 53.

Definition hasOwn (k : string) (o : obj) : bool :=
  existsb (fun kv => String.eqb k (fst kv)) o.

(** Does ['text' + v] throw?  The operand is converted to a primitive.
    An object parsed from JSON answers through [Object.prototype] unless
    it has a property [toString] of its own, which is not a function and
    leaves nothing to call; an array answers through [join], which
    converts each element in turn. *)
Fixpoint toPrimitiveThrows (v : value) : bool :=
  match v with
  | VObj o => hasOwn "toString" o
  | VArr l => existsb toPrimitiveThrows l
  | _ => false
  end.

(** ** The store: memory and files *)

Inductive file (A : Type) : Type :=
| Absent
| Corrupt
| Doc (d : A).
Arguments Absent {A}.
Arguments Corrupt {A}.
Arguments Doc {A} d.

Record memory : Type := mkMemory {
  orders : list obj;
  products : value;
  banners : value;
  orderIdCounter : Z
}.

Record disk : Type := mkDisk {
  ordersFile : file (list obj);
  productsFile : file value;
  bannersFile : file value;
  counterFile : file (option Z)
}.

Record world : Type := mkWorld {
  mem : memory;
  fs : disk
}.

(** Lines 20-23: the module-level variables when the process starts. *)
Definition initialMemory : memory :=
  mkMemory [] (VArr []) (VArr []) 1001.

Definition boot (d : disk) : world := mkWorld initialMemory d.

Definition emptyDisk : disk := mkDisk Absent Absent Absent Absent.

(** ** Exceptions and the monad *)

Inductive exn : Type :=
| ReferenceError (msg : string)
| TypeError (msg : string)
| SyntaxError (msg : string)
| Error (msg : string).

Definition message (e : exn) : string :=
  match e with
  | ReferenceError m | TypeError m | SyntaxError m | Error m => m
  end.

Inductive result (A : Type) : Type :=
| Ret (a : A)
| Throw (e : exn).
Arguments Ret {A} a.
Arguments Throw {A} e.

Definition M (A : Type) : Type := world -> result A * world.

Definition ret {A} (a : A) : M A := fun w => (Ret a, w).

Definition throw {A} (e : exn) : M A := fun w => (Throw e, w).

Definition bind {A B} (c : M A) (k : A -> M B) : M B :=
  fun w =>
    match c w with
    | (Ret a, w') => k a w'
    | (Throw e, w') => (Throw e, w')
    end.

(** [try { c } catch (err) { h err }]: what [c] did to the store before
    it threw stays done. *)
Definition try_catch {A} (c : M A) (h : exn -> M A) : M A :=
  fun w =>
    match c w with
    | (Ret a, w') => (Ret a, w')
    | (Throw e, w') => h e w'
    end.

Declare Scope js_scope.
Delimit Scope js_scope with js.
Notation "x <- c ;; k" := (bind c (fun x => k))
  (at level 61, c at next level, right associativity) : js_scope.
Notation "c ;; k" := (bind c (fun _ => k))
  (at level 61, right associativity) : js_scope.
Open Scope js_scope.

Definition readMem {A} (proj : memory -> A) : M A :=
  fun w => (Ret (proj (mem w)), w).

Definition writeMem (f : memory -> memory) : M unit :=
  fun w => (Ret tt, mkWorld (f (mem w)) (fs w)).

Definition set_orders (l : list obj) (m : memory) : memory :=
  mkMemory l (products m) (banners m) (orderIdCounter m).
Definition set_products (v : value) (m : memory) : memory :=
  mkMemory (orders m) v (banners m) (orderIdCounter m).
Definition set_banners (v : value) (m : memory) : memory :=
  mkMemory (orders m) (products m) v (orderIdCounter m).
Definition set_orderIdCounter (n : Z) (m : memory) : memory :=
  mkMemory (orders m) (products m) (banners m) n.

Definition set_ordersFile (f : file (list obj)) (d : disk) : disk :=
  mkDisk f (productsFile d) (bannersFile d) (counterFile d).
Definition set_productsFile (f : file value) (d : disk) : disk :=
  mkDisk (ordersFile d) f (bannersFile d) (counterFile d).
Definition set_bannersFile (f : file value) (d : disk) : disk :=
  mkDisk (ordersFile d) (productsFile d) f (counterFile d).
Definition set_counterFile (f : file (option Z)) (d : disk) : disk :=
  mkDisk (ordersFile d) (productsFile d) (bannersFile d) f.

(** [v.k] where [v] may be [null] or [undefined]. *)
Definition prop (v : value) (k : string) : M value :=
  if nullish v
  then throw (TypeError ("Cannot read properties of nullish value: " ++ k)%string)
  else ret (get v k).

(** ** The file system

    [fs.readFile] followed by [JSON.parse]. *)
Definition readJson {A} (sel : disk -> file A) : M A :=
  fun w =>
    match sel (fs w) with
    | Doc d => (Ret d, w)
    | Absent => (Throw (Error "ENOENT: no such file or directory"), w)
    | Corrupt => (Throw (SyntaxError "Unexpected end of JSON input"), w)
    end.

(** How one [fs.writeFile] ends.  The call replaces the whole file; when
    it fails the old content is either still there or was truncated on
    opening, which leaves text that does not parse. *)
Inductive outcome : Type :=
| Written
| FailedIntact
| FailedTruncated.

Definition writeFile {A} (put : file A -> disk -> disk) (doc : A) (o : outcome)
  : M unit :=
  fun w =>
    match o with
    | Written => (Ret tt, mkWorld (mem w) (put (Doc doc) (fs w)))
    | FailedIntact => (Throw (Error "EACCES: permission denied"), w)
    | FailedTruncated =>
        (Throw (Error "ENOSPC: no space left on device"),
         mkWorld (mem w) (put Corrupt (fs w)))
    end.

(** [fs.mkdir (DATA_DIR, { recursive: true })]. *)
Definition mkdir (ok : bool) : M unit :=
  if ok then ret tt else throw (Error "EACCES: permission denied, mkdir").

(** ** Lines 84-122: the save functions *)

Definition saveOrders (o : outcome) : M bool :=
  try_catch
    (l <- readMem orders ;;
     writeFile set_ordersFile (map jsonOfObj l) o ;;
     ret true)
    (fun _ => ret false).

Definition saveProducts (o : outcome) : M bool :=
  try_catch
    (p <- readMem products ;;
     writeFile set_productsFile (jsonOf p) o ;;
     ret true)
    (fun _ => ret false).

Definition saveBanners (o : outcome) : M bool :=
  try_catch
    (b <- readMem banners ;;
     writeFile set_bannersFile (jsonOf b) o ;;
     ret true)
    (fun _ => ret false).

Definition saveCounter (o : outcome) : M bool :=
  try_catch
    (c <- readMem orderIdCounter ;;
     writeFile set_counterFile (Some c) o ;;
     ret true)
    (fun _ => ret false).

(** ** Lines 26-81: initializeStorage

    The program calls [getDefaultProducts ()] (line 50) and
    [getDefaultBanners ()] (line 62), and declares neither: no function,
    variable or import of either name exists in server.js, the only
    source file.  Evaluating an undeclared identifier raises a
    ReferenceError, which is what the two definitions below do. *)
Definition getDefaultProducts : M value :=
  throw (ReferenceError "getDefaultProducts is not defined").

Definition getDefaultBanners : M value :=
  throw (ReferenceError "getDefaultBanners is not defined").

(** What the environment decides during one run of [initializeStorage]. *)
Record init_env : Type := mkInitEnv {
  mkdirOk : bool;
  wOrders : outcome;
  wProducts : outcome;
  wBanners : outcome;
  wCounter : outcome
}.

Definition allGood : init_env :=
  mkInitEnv true Written Written Written Written.

(** Lines 33-41. *)
Definition loadOrders (e : init_env) : M unit :=
  try_catch
    (l <- readJson ordersFile ;;
     writeMem (set_orders l))
    (fun _ =>
       writeMem (set_orders []) ;;
       saveOrders (wOrders e) ;;
       ret tt).

(** Lines 44-53.  The [try] block logs [products.length] after the
    assignment, a read that throws when the file holds [null]. *)
Definition loadProducts (e : init_env) : M unit :=
  try_catch
    (p <- readJson productsFile ;;
     writeMem (set_products p) ;;
     prop p "length" ;;
     ret tt)
    (fun _ =>
       p <- getDefaultProducts ;;
       writeMem (set_products p) ;;
       saveProducts (wProducts e) ;;
       ret tt).

(** Lines 56-65. *)
Definition loadBanners (e : init_env) : M unit :=
  try_catch
    (b <- readJson bannersFile ;;
     writeMem (set_banners b) ;;
     prop b "length" ;;
     ret tt)
    (fun _ =>
       b <- getDefaultBanners ;;
       writeMem (set_banners b) ;;
       saveBanners (wBanners e) ;;
       ret tt).

(** Line 71: [counterObj.orderIdCounter || 1001]. *)
Definition counterOrDefault (counterObj : option Z) : Z :=
  match counterObj with
  | Some n => if n =? 0 then 1001 else n
  | None => 1001
  end.

(** Lines 68-76.  The [catch] branch assigns nothing: it saves whatever
    [orderIdCounter] holds. *)
Definition loadCounter (e : init_env) : M unit :=
  try_catch
    (counterObj <- readJson counterFile ;;
     writeMem (set_orderIdCounter (counterOrDefault counterObj)))
    (fun _ =>
       saveCounter (wCounter e) ;;
       ret tt).

(** The outer [try] block, lines 28-76. *)
Definition initializeStorage_try (e : init_env) : M unit :=
  mkdir (mkdirOk e) ;;
  loadOrders e ;;
  loadProducts e ;;
  loadBanners e ;;
  loadCounter e.

(** Lines 26-81: the outer [catch] logs the error and returns. *)
Definition initializeStorage (e : init_env) : M unit :=
  try_catch (initializeStorage_try e) (fun _ => ret tt).

(** A process started on the files [d]: fresh module variables, then
    [initializeStorage] (line 317); [start] is the store that leaves.
    Whether the process then gets to serve is [launch], below. *)
Definition start (e : init_env) (d : disk) : world :=
  snd (initializeStorage e (boot d)).

(** ** The routes *)

Record response : Type := mkResponse {
  status : Z;
  body : value
}.

(** [res.json (b)], status 200 unless [res.status] set another. *)
Definition json (b : value) : response := mkResponse 200 b.

(** 'ORD-' + Date.now (). *)
Definition decimal (n : Z) : string := NilZero.string_of_int (Z.to_int n).

(** Lines 127-129: GET /api/data. *)
Definition getData : M response :=
  p <- readMem products ;;
  b <- readMem banners ;;
  ret (json (VObj [("products", p); ("banners", b)])).

(** Lines 132-149: POST /api/data. *)
Definition postData (reqBody : value) (wp wb : outcome) : M response :=
  try_catch
    (p <- prop reqBody "products" ;;
     writeMem (set_products (or_else p (VArr []))) ;;
     b <- prop reqBody "banners" ;;
     writeMem (set_banners (or_else b (VArr []))) ;;
     s1 <- saveProducts wp ;;
     s2 <- saveBanners wb ;;
     if s1 && s2
     then ret (json (VObj [("success", VBool true);
                           ("message", VStr "Data saved successfully")]))
     else throw (Error "Failed to save some data"))
    (fun _ =>
       ret (mkResponse 500 (VObj [("success", VBool false);
                                  ("message", VStr "Failed to save data")]))).

(** Lines 152-154: GET /api/orders. *)
Definition getOrders : M response :=
  l <- readMem orders ;;
  ret (json (VArr (map VObj l))).

Definition missingFields : response :=
  mkResponse 400 (VObj [("success", VBool false);
                        ("message", VStr "Missing required fields")]).

(** Lines 169-191: the object literal; [id] is the counter before the
    increment.  [customer] and [address] are truthy here, so reading
    their properties cannot throw. *)
Definition newOrder (orderData : value) (id nowMs : Z) (nowIso : string) : obj :=
  let customer := get orderData "customer" in
  let address := get orderData "address" in
  [ ("id", VNum id);
    ("orderId", VStr ("ORD-" ++ decimal nowMs)%string);
    ("customer", VObj [ ("fullName", get customer "fullName");
                        ("phone", get customer "phone");
                        ("email", or_else (get customer "email") VNull) ]);
    ("address", VObj [ ("houseNo", get address "houseNo");
                       ("street", get address "street");
                       ("city", get address "city");
                       ("state", get address "state");
                       ("pincode", get address "pincode");
                       ("landmark", or_else (get address "landmark") VNull) ]);
    ("items", get orderData "items");
    ("totalAmount", get orderData "totalAmount");
    ("paymentMethod", or_else (get orderData "paymentMethod") (VStr "COD"));
    ("notes", or_else (get orderData "notes") (VStr ""));
    ("status", VStr "Pending");
    ("orderDate", VStr nowIso) ].

(** Line 199: the log line concatenates ['| Amount: ₹'] and
    [newOrder.totalAmount]; a [console.log] argument that is not
    concatenated is only printed. *)
Definition concatAmount (amount : value) : M unit :=
  if toPrimitiveThrows amount
  then throw (TypeError "Cannot convert object to primitive value")
  else ret tt.

(** Lines 157-215: POST /api/orders.  [nowMs] is what [Date.now ()]
    returns, [nowIso] what [new Date ().toISOString ()] returns. *)
Definition postOrder (orderData : value) (nowMs : Z) (nowIso : string)
  (wo wc : outcome) : M response :=
  try_catch
    (customer <- prop orderData "customer" ;;
     if negb (truthy customer)
        || negb (truthy (get orderData "address"))
        || negb (truthy (get orderData "items"))
     then ret missingFields
     else
       id <- readMem orderIdCounter ;;
       writeMem (set_orderIdCounter (increment id)) ;;
       let o := newOrder orderData id nowMs nowIso in
       l <- readMem orders ;;
       writeMem (set_orders (l ++ [o])) ;;
       s1 <- saveOrders wo ;;
       s2 <- saveCounter wc ;;
       if s1 && s2
       then
         concatAmount (lookup "totalAmount" o) ;;
         ret (mkResponse 201 (VObj [("success", VBool true);
                                    ("orderId", lookup "orderId" o);
                                    ("order", VObj o)]))
       else throw (Error "Failed to save order"))
    (fun error =>
       ret (mkResponse 400 (VObj [("success", VBool false);
                                  ("message", VStr (message error))]))).

Definition orderNotFound : response :=
  mkResponse 404 (VObj [("success", VBool false);
                        ("message", VStr "Order not found")]).

(** [orders.find (o => o.id === id)], [id] being [parseInt
    (req.params.id)], NaN ([None]) when the text has no leading digits;
    a text with so many digits that [parseInt] returns Infinity is left
    out. *)
Definition findOrder (id : option Z) (l : list obj) : option obj :=
  find (fun o => strict_eq_num (lookup "id" o) id) l.

(** [orders.findIndex (o => o.id === id)]; [None] is -1. *)
Fixpoint findIndex (id : option Z) (l : list obj) : option nat :=
  match l with
  | [] => None
  | o :: rest =>
      if strict_eq_num (lookup "id" o) id then Some O
      else option_map S (findIndex id rest)
  end.

(** Lines 218-227: GET /api/orders/:id. *)
Definition getOrder (id : option Z) : M response :=
  l <- readMem orders ;;
  match findOrder id l with
  | None => ret orderNotFound
  | Some o => ret (json (VObj o))
  end.

(** Lines 242-243 on the object [order]. *)
Definition applyUpdate (reqBody : value) (o : obj) : obj :=
  let o1 := if truthy (get reqBody "status")
            then assign "status" (get reqBody "status") o else o in
  match get reqBody "notes" with
  | VUndef => o1
  | notes => assign "notes" notes o1
  end.

(** The found order is an element of the array and is updated in place:
    the first element with the id is the one that changes. *)
Fixpoint updateFirst (id : option Z) (f : obj -> obj) (l : list obj) : list obj :=
  match l with
  | [] => []
  | o :: rest =>
      if strict_eq_num (lookup "id" o) id then f o :: rest
      else o :: updateFirst id f rest
  end.

(** Lines 230-257: PUT /api/orders/:id.  The result of [saveOrders] is
    not looked at. *)
Definition putOrder (id : option Z) (reqBody : value) (wo : outcome) : M response :=
  try_catch
    (l <- readMem orders ;;
     match findOrder id l with
     | None => ret orderNotFound
     | Some o =>
         prop reqBody "status" ;;
         writeMem (set_orders (updateFirst id (applyUpdate reqBody) l)) ;;
         saveOrders wo ;;
         ret (json (VObj [("success", VBool true);
                          ("order", VObj (applyUpdate reqBody o))]))
     end)
    (fun _ =>
       ret (mkResponse 500 (VObj [("success", VBool false);
                                  ("message", VStr "Failed to update order")]))).

(** [orders.splice (index, 1)]. *)
Fixpoint removeAt (i : nat) (l : list obj) : list obj :=
  match l, i with
  | [], _ => []
  | _ :: rest, O => rest
  | o :: rest, S j => o :: removeAt j rest
  end.

(** Lines 260-288: DELETE /api/orders/:id. *)
Definition deleteOrder (id : option Z) (wo : outcome) : M response :=
  try_catch
    (l <- readMem orders ;;
     match findIndex id l with
     | None => ret orderNotFound
     | Some index =>
         writeMem (set_orders (removeAt index l)) ;;
         saveOrders wo ;;
         ret (json (VObj [("success", VBool true);
                          ("message", VStr "Order deleted successfully")]))
     end)
    (fun _ =>
       ret (mkResponse 500 (VObj [("success", VBool false);
                                  ("message", VStr "Failed to delete order")]))).

(** Lines 338-361: what the SIGINT and SIGTERM handlers do before the
    process exits. *)
Definition flushAll (wo wp wb wc : outcome) : M unit :=
  saveOrders wo ;;
  saveProducts wp ;;
  saveBanners wb ;;
  saveCounter wc ;;
  ret tt.

(** ** Requests, restarts and runs *)

Inductive request : Type :=
| GetData
| PostData (reqBody : value) (wp wb : outcome)
| GetOrders
| PostOrder (orderData : value) (nowMs : Z) (nowIso : string) (wo wc : outcome)
| GetOrder (id : option Z)
| PutOrder (id : option Z) (reqBody : value) (wo : outcome)
| DeleteOrder (id : option Z) (wo : outcome).

Definition handle (r : request) : M response :=
  match r with
  | GetData => getData
  | PostData reqBody wp wb => postData reqBody wp wb
  | GetOrders => getOrders
  | PostOrder orderData nowMs nowIso wo wc => postOrder orderData nowMs nowIso wo wc
  | GetOrder id => getOrder id
  | PutOrder id reqBody wo => putOrder id reqBody wo
  | DeleteOrder id wo => deleteOrder id wo
  end.

(** One request served to completion; a handler that lets an exception
    escape gets the default 500 of Express. *)
Definition serve (r : request) (w : world) : response * world :=
  match handle r w with
  | (Ret resp, w') => (resp, w')
  | (Throw e, w') => (mkResponse 500 (VStr (message e)), w')
  end.

(** The orders a request pushed onto the array: the elements of the array
    after the request that lie beyond its length before. *)
Definition pushed (before after : world) : list obj :=
  skipn (List.length (orders (mem before))) (orders (mem after)).

(** The ids a request allocated. *)
Definition allocated (r : request) (w : world) : list value :=
  match r with
  | PostOrder _ _ _ _ _ => map (lookup "id") (pushed w (snd (serve r w)))
  | _ => []
  end.

Inductive event : Type :=
| Request (r : request)
| Reboot (e : init_env)
| GracefulReboot (wo wp wb wc : outcome) (e : init_env).

Definition step (ev : event) (w : world) : world :=
  match ev with
  | Request r => snd (serve r w)
  | Reboot e => start e (fs w)
  | GracefulReboot wo wp wb wc e => start e (fs (snd (flushAll wo wp wb wc w)))
  end.


Fixpoint exec (evs : list event) (w : world) : world :=
  match evs with
  | [] => w
  | ev :: rest => exec rest (step ev w)
  end.


(** ** What the specification calls things *)

Definition counter (w : world) : Z := orderIdCounter (mem w).

(** [ValidationError]: the 400 response of line 163. *)
Definition ValidationError (r : response) : Prop := r = missingFields.

(** A response that hands the order [o] back to the caller. *)
Definition returnsOrder (r : response) (o : obj) : Prop :=
  get (body r) "order" = VObj o.

(** A payload that passes the check of line 162. *)
Definition passesValidation (orderData : value) : bool :=
  truthy (get orderData "customer")
  && truthy (get orderData "address")
  && truthy (get orderData "items").

(** Memory and files hold the same data: each file is the document its
    save function would write now. *)
Definition inSync (w : world) : Prop :=
  ordersFile (fs w) = Doc (map jsonOfObj (orders (mem w)))
  /\ productsFile (fs w) = Doc (jsonOf (products (mem w)))
  /\ bannersFile (fs w) = Doc (jsonOf (banners (mem w)))
  /\ counterFile (fs w) = Doc (Some (orderIdCounter (mem w))).


(** ** Outcomes of writes and of POST /api/orders, named *)

(** Did the write go through. *)
Definition succeeded (o : outcome) : bool :=
  match o with
  | Written => true
  | _ => false
  end.

(** The file a write leaves behind. *)
Definition after_write {A} (o : outcome) (doc : A) (old : file A) : file A :=
  match o with
  | Written => Doc doc
  | FailedIntact => old
  | FailedTruncated => Corrupt
  end.

(** The memory after an order was pushed. *)
Definition withOrder (o : obj) (m : memory) : memory :=
  mkMemory (orders m ++ [o]) (products m) (banners m)
    (increment (orderIdCounter m)).

Definition created (o : obj) : response :=
  mkResponse 201 (VObj [("success", VBool true);
                        ("orderId", lookup "orderId" o);
                        ("order", VObj o)]).

Definition failedToSave : response :=
  mkResponse 400 (VObj [("success", VBool false);
                        ("message", VStr "Failed to save order")]).

(** The answer when the log line of a saved order throws. *)
Definition amountNotPrintable : response :=
  mkResponse 400 (VObj [("success", VBool false);
                        ("message",
                         VStr "Cannot convert object to primitive value")]).

(** The answer of POST /api/orders once the order is pushed. *)
Definition answerOf (wo wc : outcome) (o : obj) : response :=
  if succeeded wo && succeeded wc
  then if toPrimitiveThrows (lookup "totalAmount" o)
       then amountNotPrintable else created o
  else failedToSave.

(** ** Data of the scenarios of the specification *)

Definition scenarioPayload : value :=
  VObj [ ("customer", VObj [("fullName", VStr "A"); ("phone", VStr "1")]);
         ("address", VObj [("houseNo", VStr "7"); ("street", VStr "Main");
                           ("city", VStr "Pune"); ("state", VStr "MH");
                           ("pincode", VStr "411001")]);
         ("items", VArr [VObj [("sku", VStr "x"); ("qty", VNum 2)]]);
         ("totalAmount", VNum 40) ].

(** customer only: [address] and [items] are missing. *)
Definition customerOnlyPayload : value :=
  VObj [ ("customer", VObj [("fullName", VStr "A")]) ].

(** [scenarioPayload] with one property set to another value. *)
Definition scenarioWith (k : string) (v : value) : value :=
  match scenarioPayload with
  | VObj fields => VObj (assign k v fields)
  | other => other
  end.

(** All four files present, with no order and the counter at 1001. *)
Definition freshDisk : disk :=
  mkDisk (Doc []) (Doc (VArr [])) (Doc (VArr [])) (Doc (Some 1001)).

(** The store after one order was created from [scenarioPayload]. *)
Definition firstOrder : obj := newOrder scenarioPayload 1001 5 "t1".

Definition oneOrderWorld : world :=
  snd (serve (PostOrder scenarioPayload 5 "t1" Written Written) (boot freshDisk)).

(** Bodies of PUT /api/orders/:id. *)
Definition shippedBody : value := VObj [("status", VStr "Shipped")].

Definition emptyStatusBody : value := VObj [("status", VStr "")].

(** Create an order, delete it, create another. *)
Definition createDeleteCreate : list request :=
  [ PostOrder scenarioPayload 5 "t1" Written Written;
    DeleteOrder (Some 1001) Written;
    PostOrder scenarioPayload 6 "t2" Written Written ].


(** All files present, counter.json holding an object without a usable
    [orderIdCounter]. *)
Definition counterlessDisk : disk :=
  mkDisk (Doc []) (Doc (VArr [])) (Doc (VArr [])) (Doc None).

(** The body of GET /api/data in the initial memory. *)
Definition emptyCatalog : value :=
  VObj [("products", VArr []); ("banners", VArr [])].

(** A catalog for the round trip. *)
Definition someProducts : list value :=
  [VObj [("name", VStr "Lamp"); ("price", VNum 900)]; VObj [("name", VStr "Desk")]].

Definition someBanners : list value := [VObj [("title", VStr "Sale")]].

Definition catalogBody : value :=
  VObj [("products", VArr someProducts); ("banners", VArr someBanners)].

(** ** Lines 291-303: GET /

    Strings are held as their UTF-8 bytes; [s.length] counts UTF-16 code
    units, one for each character of one to three bytes and two for each
    character of four. *)
Definition utf16Units (c : Ascii.ascii) : Z :=
  let b := Z.of_nat (Ascii.nat_of_ascii c) in
  if b <? 128 then 1
  else if b <? 192 then 0
  else if b <? 240 then 1
  else 2.

Fixpoint utf16Length (s : string) : Z :=
  match s with
  | EmptyString => 0
  | String c rest => utf16Units c + utf16Length rest
  end.

(** [v.length]: the own property of an object, the length of an array or
    a string, nothing on a number or a boolean. *)
Definition lengthOf (v : value) : M value :=
  match v with
  | VUndef | VNull =>
      throw (TypeError "Cannot read properties of nullish value: length")
  | VArr l => ret (VNum (Z.of_nat (List.length l)))
  | VStr s => ret (VNum (utf16Length s))
  | VObj o => ret (lookup "length" o)
  | VBool _ | VNum _ | VInf _ => ret VUndef
  end.

(** The handler has no [try]: an exception goes to Express. *)
Definition getRoot (nowIso : string) : M response :=
  l <- readMem orders ;;
  p <- readMem products ;;
  totalProducts <- lengthOf p ;;
  b <- readMem banners ;;
  totalBanners <- lengthOf b ;;
  c <- readMem orderIdCounter ;;
  ret (json (VObj [ ("message", VStr "🛍️ ShopZone API Running");
                    ("status", VStr "online");
                    ("stats",
                     VObj [ ("totalOrders", VNum (Z.of_nat (List.length l)));
                            ("totalProducts", totalProducts);
                            ("totalBanners", totalBanners);
                            ("nextOrderId", VNum c) ]);
                    ("timestamp", VStr nowIso) ])).

(** The [stats] of a response of GET /. *)
Definition stat (r : response) (k : string) : value :=
  get (get (body r) "stats") k.

(** ** Further vocabulary *)

(** The ids of the orders in memory, in array order. *)
Definition orderIds (w : world) : list value :=
  map (lookup "id") (orders (mem w)).

(** Every order in memory has an integer id of its own, below the
    counter. *)
Definition wellNumbered (w : world) : Prop :=
  NoDup (orderIds w)
  /\ Forall (fun v => exists n, v = VNum n /\ n < counter w) (orderIds w).

(** Every [fs.writeFile] the request asks for goes through. *)
Definition writesSucceed (r : request) : bool :=
  match r with
  | PostData _ wp wb => succeeded wp && succeeded wb
  | PostOrder _ _ _ wo wc => succeeded wo && succeeded wc
  | PutOrder _ _ wo => succeeded wo
  | DeleteOrder _ wo => succeeded wo
  | _ => true
  end.

(** The memory as its four documents describe it. *)
Definition jsonMemory (m : memory) : memory :=
  mkMemory (map jsonOfObj (orders m)) (jsonOf (products m)) (jsonOf (banners m))
    (orderIdCounter m).

(** No order of [l] has the id [id]. *)
Definition noOrderWith (id : option Z) (l : list obj) : Prop :=
  forall o n, In o l -> id = Some n -> lookup "id" o <> VNum n.

(** The range of [Date.now ()]: at most 8.64e15 milliseconds from the
    epoch, on either side. *)
Definition validTime (ms : Z) : Prop :=
  - 8640000000000000 <= ms <= 8640000000000000.

(** The answers of PUT and DELETE /api/orders/:id, named. *)
Definition updated (o : obj) : response :=
  json (VObj [("success", VBool true); ("order", VObj o)]).

Definition updateFailed : response :=
  mkResponse 500 (VObj [("success", VBool false);
                        ("message", VStr "Failed to update order")]).

Definition deleted : response :=
  json (VObj [("success", VBool true);
              ("message", VStr "Order deleted successfully")]).

Definition dataSaved : response :=
  json (VObj [("success", VBool true);
              ("message", VStr "Data saved successfully")]).

Definition dataNotSaved : response :=
  mkResponse 500 (VObj [("success", VBool false);
                        ("message", VStr "Failed to save data")]).

(** [initializeStorage] on the files [d], stage by stage: what each
    loader leaves when it is reached. *)
Definition afterOrders (e : init_env) (d : disk) : world :=
  match ordersFile d with
  | Doc l => mkWorld (set_orders l initialMemory) d
  | f => mkWorld initialMemory (set_ordersFile (after_write (wOrders e) [] f) d)
  end.

Definition afterCounter (e : init_env) (w : world) : world :=
  match counterFile (fs w) with
  | Doc c => mkWorld (set_orderIdCounter (counterOrDefault c) (mem w)) (fs w)
  | f =>
      mkWorld (mem w)
        (set_counterFile
           (after_write (wCounter e) (Some (orderIdCounter (mem w))) f) (fs w))
  end.

Definition afterBanners (e : init_env) (w : world) : world :=
  match bannersFile (fs w) with
  | Doc b =>
      let w' := mkWorld (set_banners b (mem w)) (fs w) in
      if nullish b then w' else afterCounter e w'
  | _ => w
  end.

Definition afterProducts (e : init_env) (w : world) : world :=
  match productsFile (fs w) with
  | Doc p =>
      let w' := mkWorld (set_products p (mem w)) (fs w) in
      if nullish p then w' else afterBanners e w'
  | _ => w
  end.

(** The store after the catalog of [catalogBody] was posted. *)
Definition catalogWorld : world :=
  snd (serve (PostData catalogBody Written Written) (boot freshDisk)).

(** Files whose products.json holds [null]. *)
Definition nullProductsDisk : disk :=
  mkDisk (Doc []) (Doc VNull) (Doc (VArr [])) (Doc (Some 1001)).

(** Two payloads that agree on everything [newOrder] reads. *)
Definition sameOrderFields (p p' : value) : Prop :=
  get p "items" = get p' "items"
  /\ get p "totalAmount" = get p' "totalAmount"
  /\ get p "paymentMethod" = get p' "paymentMethod"
  /\ get p "notes" = get p' "notes"
  /\ (forall k, In k ["fullName"; "phone"; "email"] ->
      get (get p "customer") k = get (get p' "customer") k)
  /\ (forall k, In k ["houseNo"; "street"; "city"; "state"; "pincode"; "landmark"] ->
      get (get p "address") k = get (get p' "address") k).

(** [scenarioPayload] with properties the handler does not read: an id,
    a status, an order date, and a role inside the customer. *)
Definition decoratedPayload : value :=
  VObj [ ("id", VNum 7);
         ("status", VStr "Delivered");
         ("orderDate", VStr "1999");
         ("customer", VObj [("role", VStr "admin"); ("fullName", VStr "A");
                            ("phone", VStr "1")]);
         ("address", VObj [("houseNo", VStr "7"); ("street", VStr "Main");
                           ("city", VStr "Pune"); ("state", VStr "MH");
                           ("pincode", VStr "411001")]);
         ("items", VArr [VObj [("sku", VStr "x"); ("qty", VNum 2)]]);
         ("totalAmount", VNum 40) ].

(** The store after two orders were created from [scenarioPayload]. *)
Definition twoOrderWorld : world :=
  snd (serve (PostOrder scenarioPayload 6 "t2" Written Written) oneOrderWorld).

Definition secondOrder : obj := newOrder scenarioPayload 1002 6 "t2".

(** ** Lines 317-335: the server starts

    After [initializeStorage] the server listens, and the callback of
    [app.listen] logs [orders.length], [products.length] and
    [banners.length].  Nothing catches an exception thrown there: the
    process exits. *)
Definition listenCallback : M unit :=
  readMem orders ;;
  p <- readMem products ;;
  lengthOf p ;;
  b <- readMem banners ;;
  lengthOf b ;;
  ret tt.

(** The store the process serves from, [None] when it exits before it
    serves a request. *)
Definition launch (e : init_env) (d : disk) : option world :=
  match listenCallback (start e d) with
  | (Ret _, w) => Some w
  | (Throw _, _) => None
  end.

(** What a start needs in order to take the counter up where it was: a
    products.json and a banners.json that parse to something other than
    null, whose loaders come first, and a counter.json that holds the
    counter. *)
Definition counterOnDisk (w : world) : Prop :=
  counterFile (fs w) = Doc (Some (counter w))
  /\ (exists p, productsFile (fs w) = Doc p /\ nullish p = false)
  /\ (exists b, bannersFile (fs w) = Doc b /\ nullish b = false).

(** The event, if it starts the process again, does so on a directory
    that could be created and on files as [counterOnDisk] asks. *)
Definition restartFindsCounter (ev : event) (w : world) : Prop :=
  match ev with
  | Request _ => True
  | Reboot e => mkdirOk e = true /\ counterOnDisk w
  | GracefulReboot wo wp wb wc e =>
      mkdirOk e = true /\ counterOnDisk (snd (flushAll wo wp wb wc w))
  end.


(** The event, if it starts the process again, leaves a process that
    gets past the callback of [app.listen] and serves from the store
    [step] gives. *)
Definition launches (ev : event) (w : world) : Prop :=
  match ev with
  | Request _ => True
  | Reboot e => launch e (fs w) = Some (step ev w)
  | GracefulReboot wo wp wb wc e =>
      launch e (fs (snd (flushAll wo wp wb wc w))) = Some (step ev w)
  end.

(** ** More data of scenarios *)





(** [scenarioPayload] with a totalAmount that has no primitive value:
    the body {"totalAmount": {"toString": 0}, ...}. *)
Definition unprintablePayload : value :=
  scenarioWith "totalAmount" (VObj [("toString", VNum 0)]).

(** A catalog with a price written 1e999, which [JSON.parse] reads as
    Infinity. *)
Definition overflowProducts : list value :=
  [VObj [("name", VStr "Lamp"); ("price", VInf false)]].

Definition overflowBody : value :=
  VObj [("products", VArr overflowProducts); ("banners", VArr [])].

(** * Proofs *)

(** ** The model at work *)

Example start_on_present_files :
  start allGood freshDisk = mkWorld initialMemory freshDisk.
Proof. reflexivity. Qed.

Example start_without_files_stops_early :
  initializeStorage_try allGood (boot emptyDisk)
  = (Throw (ReferenceError "getDefaultProducts is not defined"),
     mkWorld initialMemory (mkDisk (Doc []) Absent Absent Absent)).
Proof. reflexivity. Qed.

Example first_order_response :
  fst (serve (PostOrder scenarioPayload 5 "t1" Written Written) (boot freshDisk))
  = created firstOrder.
Proof. reflexivity. Qed.

Example first_order_on_disk :
  fs oneOrderWorld
  = mkDisk (Doc [jsonOfObj firstOrder]) (Doc (VArr [])) (Doc (VArr []))
      (Doc (Some 1002)).
Proof. reflexivity. Qed.

Example order_id_text : lookup "orderId" firstOrder = VStr "ORD-5".
Proof. reflexivity. Qed.

Example undefined_is_not_written :
  jsonOf (VObj [("fullName", VStr "A"); ("phone", VUndef)])
  = VObj [("fullName", VStr "A")].
Proof. reflexivity. Qed.

Example delete_then_get :
  let w := snd (serve (DeleteOrder (Some 1001) Written) oneOrderWorld) in
  orders (mem w) = [] /\ fst (serve (GetOrder (Some 1001)) w) = orderNotFound.
Proof. split; reflexivity. Qed.

(** A first deployment: no file yet, an order is created and both writes
    succeed, the process is started again.  products.json is still
    missing, so the start stops before it reads counter.json. *)
Example restart_without_catalog :
  let w1 := snd (serve (PostOrder scenarioPayload 5 "t1" Written Written)
                   (start allGood emptyDisk)) in
  let w2 := start allGood (fs w1) in
  counterFile (fs w1) = Doc (Some 1002)
  /\ counterFile (fs w2) = Doc (Some 1002)
  /\ counter w2 = 1001
  /\ map (lookup "id") (orders (mem w2)) = [VNum 1001].
Proof. repeat split. Qed.

Example update_unknown_id :
  serve (PutOrder (Some 7) shippedBody Written) oneOrderWorld
  = (orderNotFound, oneOrderWorld).
Proof. reflexivity. Qed.

(** ** The save functions touch one file and no variable *)

Lemma saveOrders_eq o w :
  saveOrders o w =
  (Ret (succeeded o),
   mkWorld (mem w)
     (set_ordersFile
        (after_write o (map jsonOfObj (orders (mem w))) (ordersFile (fs w)))
        (fs w))).
Proof. destruct w as [m [fo fp fb fc]]; destruct o; reflexivity. Qed.

Lemma saveProducts_eq o w :
  saveProducts o w =
  (Ret (succeeded o),
   mkWorld (mem w)
     (set_productsFile
        (after_write o (jsonOf (products (mem w))) (productsFile (fs w)))
        (fs w))).
Proof. destruct w as [m [fo fp fb fc]]; destruct o; reflexivity. Qed.

Lemma saveBanners_eq o w :
  saveBanners o w =
  (Ret (succeeded o),
   mkWorld (mem w)
     (set_bannersFile
        (after_write o (jsonOf (banners (mem w))) (bannersFile (fs w)))
        (fs w))).
Proof. destruct w as [m [fo fp fb fc]]; destruct o; reflexivity. Qed.

Lemma saveCounter_eq o w :
  saveCounter o w =
  (Ret (succeeded o),
   mkWorld (mem w)
     (set_counterFile
        (after_write o (Some (orderIdCounter (mem w))) (counterFile (fs w)))
        (fs w))).
Proof. destruct w as [m [fo fp fb fc]]; destruct o; reflexivity. Qed.

(** ** POST /api/orders, case by case *)

Lemma passesValidation_object p :
  passesValidation p = true -> exists fields, p = VObj fields.
Proof.
  unfold passesValidation.
  destruct p; simpl; try discriminate.
  intros _. eexists. reflexivity.
Qed.

Lemma postOrder_valid p nowMs nowIso wo wc w :
  passesValidation p = true ->
  let o := newOrder p (counter w) nowMs nowIso in
  let m' := withOrder o (mem w) in
  postOrder p nowMs nowIso wo wc w =
  (Ret (answerOf wo wc o),
   mkWorld m'
     (set_counterFile
        (after_write wc (Some (orderIdCounter m')) (counterFile (fs w)))
        (set_ordersFile
           (after_write wo (map jsonOfObj (orders m')) (ordersFile (fs w)))
           (fs w)))).
Proof.
  intros Hv.
  destruct (passesValidation_object p Hv) as [fields ->].
  unfold passesValidation in Hv.
  apply andb_prop in Hv as [Hv Hi]. apply andb_prop in Hv as [Hc Ha].
  destruct w as [m d].
  unfold postOrder, try_catch, bind, prop.
  cbn [nullish]. unfold ret at 1. cbv beta iota.
  rewrite Hc, Ha, Hi. cbn [negb orb].
  unfold readMem, writeMem. cbn [mem fs].
  rewrite saveOrders_eq. cbn [mem fs].
  rewrite saveCounter_eq. cbn [mem fs].
  unfold answerOf, concatAmount, counter. cbn [mem].
  destruct wo, wc; try reflexivity. cbn [succeeded andb].
  destruct (toPrimitiveThrows
              (lookup "totalAmount"
                 (newOrder (VObj fields) (orderIdCounter m) nowMs nowIso)));
    reflexivity.
Qed.

(** ** The counter's arithmetic *)

Lemma increment_safe n : safeCounter n -> increment n = n + 1.
Proof.
  unfold safeCounter, increment. intros [Hlo Hhi].
  apply Z.leb_le in Hlo. apply Z.ltb_lt in Hhi. rewrite Hlo, Hhi. reflexivity.
Qed.

Lemma increment_grows n : n <= increment n.
Proof.
  unfold increment.
  destruct ((- 2 ^ 53 <=? n) && (n <? 2 ^ 53)); [lia |].
  destruct ((Z.abs n <? 2 ^ 54) && Z.odd (n / 2)); lia.
Qed.

Lemma increment_limit : increment (2 ^ 53) = 2 ^ 53.
Proof. reflexivity. Qed.

Lemma lookup_totalAmount p id ms iso :
  lookup "totalAmount" (newOrder p id ms iso) = get p "totalAmount".
Proof. reflexivity. Qed.

Lemma answerOf_created wo wc p id ms iso :
  succeeded wo && succeeded wc = true ->
  toPrimitiveThrows (get p "totalAmount") = false ->
  answerOf wo wc (newOrder p id ms iso) = created (newOrder p id ms iso).
Proof.
  intros Hs Ht. unfold answerOf. rewrite Hs, lookup_totalAmount, Ht.
  reflexivity.
Qed.

Lemma answerOf_failed wo wc o :
  succeeded wo && succeeded wc = false -> answerOf wo wc o = failedToSave.
Proof. intros Hs. unfold answerOf. rewrite Hs. reflexivity. Qed.

Lemma postOrder_invalid p nowMs nowIso wo wc w :
  nullish p = false ->
  passesValidation p = false ->
  postOrder p nowMs nowIso wo wc w = (Ret missingFields, w).
Proof.
  intros Hn Hv. unfold passesValidation in Hv.
  unfold postOrder, try_catch, bind, prop. rewrite Hn. unfold ret at 1.
  destruct (truthy (get p "customer")), (truthy (get p "address")),
    (truthy (get p "items")); simpl in *; try discriminate; reflexivity.
Qed.

Lemma postOrder_nullish p nowMs nowIso wo wc w :
  nullish p = true ->
  exists msg,
    postOrder p nowMs nowIso wo wc w =
    (Ret (mkResponse 400 (VObj [("success", VBool false); ("message", VStr msg)])),
     w).
Proof.
  intros Hn. unfold postOrder, try_catch, bind, prop. rewrite Hn.
  eexists. reflexivity.
Qed.

Lemma serve_postOrder p nowMs nowIso wo wc w :
  serve (PostOrder p nowMs nowIso wo wc) w =
  match postOrder p nowMs nowIso wo wc w with
  | (Ret resp, w') => (resp, w')
  | (Throw e, w') => (mkResponse 500 (VStr (message e)), w')
  end.
Proof. reflexivity. Qed.

(** ** Validation (C7, C10) *)

(** C7.  For every payload in which customer, address or items is absent,
    POST /api/orders answers with the ValidationError response, and the
    store is the one before the call: the Orders collection (length and
    contents), the Counter and the files are unchanged. *)
Theorem C7_missing_field_is_rejected :
  forall (p : value) (nowMs : Z) (nowIso : string) (wo wc : outcome) (w : world),
    nullish p = false ->
    get p "customer" = VUndef \/ get p "address" = VUndef \/ get p "items" = VUndef ->
    let s := serve (PostOrder p nowMs nowIso wo wc) w in
    ValidationError (fst s)
    /\ orders (mem (snd s)) = orders (mem w)
    /\ counter (snd s) = counter w
    /\ snd s = w.
Proof.
  intros p nowMs nowIso wo wc w Hn Habs s.
  assert (Hv : passesValidation p = false).
  { unfold passesValidation.
    destruct Habs as [H | [H | H]]; rewrite H; simpl;
      rewrite ?andb_false_r; reflexivity. }
  subst s. rewrite serve_postOrder, (postOrder_invalid _ _ _ _ _ _ Hn Hv).
  simpl. repeat split; reflexivity.
Qed.

Lemma C7_witness :
  nullish customerOnlyPayload = false
  /\ (get customerOnlyPayload "customer" = VUndef
      \/ get customerOnlyPayload "address" = VUndef
      \/ get customerOnlyPayload "items" = VUndef)
  /\ (let s := serve (PostOrder customerOnlyPayload 0 "t" Written Written)
                 (boot freshDisk) in
      ValidationError (fst s)
      /\ orders (mem (snd s)) = orders (mem (boot freshDisk))
      /\ counter (snd s) = counter (boot freshDisk)
      /\ snd s = boot freshDisk).
Proof.
  split; [reflexivity | split; [right; left; reflexivity | ]].
  apply (C7_missing_field_is_rejected customerOnlyPayload 0 "t" Written Written
           (boot freshDisk)).
  - reflexivity.
  - right; left; reflexivity.
Defined.

(** C10.  The presence check is a truthiness check.  A payload in which
    customer, address or items is present but falsy gets the same
    ValidationError response and leaves the same unchanged store as one
    in which the field is absent; a payload whose items is the empty
    array (customer and address truthy) passes the check: its order is
    pushed, the counter is incremented, and the answer is the 201
    response carrying the order once both writes succeed and the
    totalAmount can be concatenated into the log line (it has a
    primitive value, as every number, string, boolean, null and absent
    amount has). *)
Theorem C10_presence_check_is_truthiness :
  forall (p : value) (nowMs : Z) (nowIso : string) (wo wc : outcome) (w : world),
    nullish p = false ->
    let s := serve (PostOrder p nowMs nowIso wo wc) w in
    let o := newOrder p (counter w) nowMs nowIso in
    (truthy (get p "customer") = false
     \/ truthy (get p "address") = false
     \/ truthy (get p "items") = false ->
     ValidationError (fst s) /\ snd s = w)
    /\ (truthy (get p "customer") = true ->
        truthy (get p "address") = true ->
        get p "items" = VArr [] ->
        orders (mem (snd s)) = orders (mem w) ++ [o]
        /\ counter (snd s) = increment (counter w)
        /\ fst s = answerOf wo wc o
        /\ (succeeded wo && succeeded wc = true ->
            toPrimitiveThrows (get p "totalAmount") = false ->
            fst s = created o)).
Proof.
  intros p nowMs nowIso wo wc w Hn s o. split.
  - intros Hf.
    assert (Hv : passesValidation p = false).
    { unfold passesValidation.
      destruct Hf as [H | [H | H]]; rewrite H;
        rewrite ?andb_false_r; reflexivity. }
    subst s. rewrite serve_postOrder, (postOrder_invalid _ _ _ _ _ _ Hn Hv).
    split; reflexivity.
  - intros Hc Ha Hi.
    assert (Hv : passesValidation p = true).
    { unfold passesValidation. rewrite Hc, Ha, Hi. reflexivity. }
    subst s o. rewrite serve_postOrder, (postOrder_valid _ _ _ _ _ _ Hv).
    cbn [fst snd mem withOrder orders orderIdCounter counter].
    do 3 (split; [reflexivity |]).
    intros Hs Ht. apply answerOf_created; assumption.
Qed.

Lemma C10_witness :
  (* items: 0, customer: "", address: null, items: false *)
  (truthy (get (scenarioWith "items" (VNum 0)) "items") = false
   /\ serve (PostOrder (scenarioWith "items" (VNum 0)) 0 "t" Written Written)
        (boot freshDisk) = (missingFields, boot freshDisk))
  /\ (truthy (get (scenarioWith "customer" (VStr "")) "customer") = false
      /\ serve (PostOrder (scenarioWith "customer" (VStr "")) 0 "t" Written Written)
           (boot freshDisk) = (missingFields, boot freshDisk))
  /\ (truthy (get (scenarioWith "address" VNull) "address") = false
      /\ serve (PostOrder (scenarioWith "address" VNull) 0 "t" Written Written)
           (boot freshDisk) = (missingFields, boot freshDisk))
  /\ (truthy (get (scenarioWith "items" (VBool false)) "items") = false
      /\ serve (PostOrder (scenarioWith "items" (VBool false)) 0 "t" Written Written)
           (boot freshDisk) = (missingFields, boot freshDisk))
  (* items: [] *)
  /\ (let p := scenarioWith "items" (VArr []) in
      let s := serve (PostOrder p 0 "t" Written Written) (boot freshDisk) in
      get p "items" = VArr []
      /\ orders (mem (snd s)) = [newOrder p 1001 0 "t"]
      /\ counter (snd s) = 1002
      /\ fst s = created (newOrder p 1001 0 "t")).
Proof.
  pose proof (fun p Hn Hf =>
                proj1 (C10_presence_check_is_truthiness p 0 "t" Written Written
                         (boot freshDisk) Hn) Hf) as Hrej.
  pose proof (proj2 (C10_presence_check_is_truthiness
                       (scenarioWith "items" (VArr [])) 0 "t" Written Written
                       (boot freshDisk) eq_refl) eq_refl eq_refl eq_refl) as Hacc.
  assert (Hpair : forall p,
             ValidationError
               (fst (serve (PostOrder p 0 "t" Written Written) (boot freshDisk)))
             /\ snd (serve (PostOrder p 0 "t" Written Written) (boot freshDisk))
                = boot freshDisk ->
             serve (PostOrder p 0 "t" Written Written) (boot freshDisk)
             = (missingFields, boot freshDisk)).
  { intros p [Hr Hw]. unfold ValidationError in Hr.
    rewrite (surjective_pairing
               (serve (PostOrder p 0 "t" Written Written) (boot freshDisk))).
    rewrite Hr, Hw. reflexivity. }
  destruct Hacc as (Ho & Hc & _ & Hr).
  split; [split; [reflexivity
                 | apply Hpair, Hrej; [reflexivity | right; right; reflexivity]] | ].
  split; [split; [reflexivity
                 | apply Hpair, Hrej; [reflexivity | left; reflexivity]] | ].
  split; [split; [reflexivity
                 | apply Hpair, Hrej; [reflexivity | right; left; reflexivity]] | ].
  split; [split; [reflexivity
                 | apply Hpair, Hrej; [reflexivity | right; right; reflexivity]] | ].
  split; [reflexivity
         | split; [exact Ho | split; [exact Hc | exact (Hr eq_refl eq_refl)]]].
Defined.

(** ** Creating orders (C6, C5) *)

(** C6.  With the Counter at 1001, POST /api/orders on a payload with
    customer, address and items, no paymentMethod, and a totalAmount
    that has a primitive value (a number, as the data model has it, or
    any value the log line of line 199 can concatenate), both writes
    succeeding, returns the 201 response with an order whose id is 1001,
    status "Pending" and paymentMethod "COD"; the next such request
    returns an order with id 1002. *)
Theorem C6_first_two_orders :
  forall (p1 p2 : value) (ms1 ms2 : Z) (iso1 iso2 : string) (w : world),
    counter w = 1001 ->
    passesValidation p1 = true ->
    get p1 "paymentMethod" = VUndef ->
    toPrimitiveThrows (get p1 "totalAmount") = false ->
    passesValidation p2 = true ->
    toPrimitiveThrows (get p2 "totalAmount") = false ->
    let s1 := serve (PostOrder p1 ms1 iso1 Written Written) w in
    let s2 := serve (PostOrder p2 ms2 iso2 Written Written) (snd s1) in
    exists o1 o2,
      status (fst s1) = 201 /\ returnsOrder (fst s1) o1
      /\ lookup "id" o1 = VNum 1001
      /\ lookup "status" o1 = VStr "Pending"
      /\ lookup "paymentMethod" o1 = VStr "COD"
      /\ status (fst s2) = 201 /\ returnsOrder (fst s2) o2
      /\ lookup "id" o2 = VNum 1002
      /\ orders (mem (snd s2)) = orders (mem w) ++ [o1; o2].
Proof.
  intros p1 p2 ms1 ms2 iso1 iso2 w Hc Hv1 Hpm Ht1 Hv2 Ht2 s1 s2.
  exists (newOrder p1 1001 ms1 iso1), (newOrder p2 1002 ms2 iso2).
  assert (E1 : fst s1 = created (newOrder p1 1001 ms1 iso1)
               /\ counter (snd s1) = 1002
               /\ orders (mem (snd s1))
                  = orders (mem w) ++ [newOrder p1 1001 ms1 iso1]).
  { subst s1. rewrite serve_postOrder, (postOrder_valid _ _ _ _ _ _ Hv1), Hc.
    rewrite (answerOf_created Written Written p1 1001 ms1 iso1 eq_refl Ht1).
    cbn [fst snd mem withOrder orders orderIdCounter counter].
    unfold counter in Hc. rewrite Hc. repeat split. }
  destruct E1 as [E1 [Hc1 Ho1]].
  assert (E2 : fst s2 = created (newOrder p2 1002 ms2 iso2)
               /\ orders (mem (snd s2))
                  = orders (mem (snd s1)) ++ [newOrder p2 1002 ms2 iso2]).
  { subst s2. rewrite serve_postOrder, (postOrder_valid _ _ _ _ _ _ Hv2), Hc1.
    rewrite (answerOf_created Written Written p2 1002 ms2 iso2 eq_refl Ht2).
    cbn [fst snd mem withOrder orders orderIdCounter counter].
    repeat split. }
  destruct E2 as [E2 Ho2].
  rewrite E1, E2, Ho2, Ho1, <- app_assoc.
  repeat split.
  unfold newOrder. cbn [lookup String.eqb Ascii.eqb Bool.eqb].
  rewrite Hpm. reflexivity.
Qed.

Lemma C6_witness :
  counter (boot freshDisk) = 1001
  /\ passesValidation scenarioPayload = true
  /\ get scenarioPayload "paymentMethod" = VUndef
  /\ toPrimitiveThrows (get scenarioPayload "totalAmount") = false
  /\ (let s1 := serve (PostOrder scenarioPayload 5 "t1" Written Written)
                  (boot freshDisk) in
      let s2 := serve (PostOrder scenarioPayload 6 "t2" Written Written) (snd s1) in
      exists o1 o2,
        status (fst s1) = 201 /\ returnsOrder (fst s1) o1
        /\ lookup "id" o1 = VNum 1001
        /\ lookup "status" o1 = VStr "Pending"
        /\ lookup "paymentMethod" o1 = VStr "COD"
        /\ status (fst s2) = 201 /\ returnsOrder (fst s2) o2
        /\ lookup "id" o2 = VNum 1002
        /\ orders (mem (snd s2)) = orders (mem (boot freshDisk)) ++ [o1; o2]).
Proof.
  do 4 (split; [reflexivity |]).
  apply (C6_first_two_orders scenarioPayload scenarioPayload 5 6 "t1" "t2"
           (boot freshDisk)); reflexivity.
Defined.

(** C5, as the code has it.  When POST /api/orders passes validation and
    the write of the Orders or of the Counter file fails, the answer is
    the 400 response with message "Failed to save order", which carries
    no order; the new Order stays pushed onto the in-memory Orders
    collection and the Counter stays advanced (by [increment], which is
    one more wherever the counter is a safe integer). *)
Theorem C5_failed_write_answer_and_memory :
  forall (p : value) (nowMs : Z) (nowIso : string) (wo wc : outcome) (w : world),
    passesValidation p = true ->
    succeeded wo && succeeded wc = false ->
    let s := serve (PostOrder p nowMs nowIso wo wc) w in
    fst s = failedToSave
    /\ (forall o, ~ returnsOrder (fst s) o)
    /\ orders (mem (snd s)) = orders (mem w) ++ [newOrder p (counter w) nowMs nowIso]
    /\ counter (snd s) = increment (counter w)
    /\ (safeCounter (counter w) -> counter (snd s) = counter w + 1).
Proof.
  intros p nowMs nowIso wo wc w Hv Hs s. subst s.
  rewrite serve_postOrder, (postOrder_valid _ _ _ _ _ _ Hv).
  rewrite (answerOf_failed _ _ _ Hs).
  cbn [fst snd mem withOrder orders orderIdCounter counter].
  split; [reflexivity | split].
  - intros o. unfold returnsOrder, failedToSave. simpl. discriminate.
  - split; [reflexivity | split; [reflexivity |]].
    apply increment_safe.
Qed.

Lemma C5_witness :
  passesValidation scenarioPayload = true
  /\ succeeded Written && succeeded FailedIntact = false
  /\ (let s := serve (PostOrder scenarioPayload 5 "t1" Written FailedIntact)
                 (boot freshDisk) in
      fst s = failedToSave
      /\ (forall o, ~ returnsOrder (fst s) o)
      /\ orders (mem (snd s))
         = orders (mem (boot freshDisk))
           ++ [newOrder scenarioPayload (counter (boot freshDisk)) 5 "t1"]
      /\ counter (snd s) = counter (boot freshDisk) + 1).
Proof.
  split; [reflexivity | split; [reflexivity | ]].
  destruct (C5_failed_write_answer_and_memory scenarioPayload 5 "t1" Written
              FailedIntact (boot freshDisk) eq_refl eq_refl)
    as (Ha & Hn & Ho & _ & Hc).
  split; [exact Ha | split; [exact Hn | split; [exact Ho |]]].
  apply Hc. unfold safeCounter. split; [discriminate | reflexivity].
Defined.

(** C5 as stated fails: the Counter write fails, the order is pushed, and
    the response hands no order back. *)
Lemma C5_counterexample :
  let w := boot freshDisk in
  let s := serve (PostOrder scenarioPayload 5 "t1" Written FailedIntact) w in
  passesValidation scenarioPayload = true
  /\ orders (mem (snd s)) = orders (mem w) ++ [newOrder scenarioPayload 1001 5 "t1"]
  /\ ~ (exists o, returnsOrder (fst s) o).
Proof.
  cbv zeta. split; [reflexivity | split; [reflexivity | ]].
  intros [o H]. unfold returnsOrder in H. simpl in H. discriminate.
Qed.

(** ** Updating an order (C8) *)

Lemma lookup_assign_same k v o : lookup k (assign k v o) = v.
Proof.
  induction o as [| [k' v'] rest IH]; simpl.
  - rewrite String.eqb_refl. reflexivity.
  - destruct (String.eqb k k') eqn:E; simpl.
    + rewrite String.eqb_refl. reflexivity.
    + rewrite E. exact IH.
Qed.

Lemma lookup_assign_other k k' v o :
  k' <> k -> lookup k' (assign k v o) = lookup k' o.
Proof.
  intros Hne.
  assert (Hkk : String.eqb k' k = false) by (apply String.eqb_neq; exact Hne).
  induction o as [| [k0 v0] rest IH]; simpl.
  - rewrite Hkk. reflexivity.
  - destruct (String.eqb k k0) eqn:E; simpl.
    + apply String.eqb_eq in E. subst k0. rewrite Hkk. reflexivity.
    + destruct (String.eqb k' k0); [reflexivity | exact IH].
Qed.

(** Assigning a property that exists replaces its value where it stands. *)
Lemma assign_in_place k v v0 pre post :
  (forall x, In x pre -> fst x <> k) ->
  assign k v (pre ++ (k, v0) :: post) = pre ++ (k, v) :: post.
Proof.
  induction pre as [| [k' v'] pre IH]; intros Hpre; simpl.
  - rewrite String.eqb_refl. reflexivity.
  - assert (Hne : String.eqb k k' = false).
    { apply String.eqb_neq. intros ->. apply (Hpre (k', v')); [left |]; reflexivity. }
    rewrite Hne. f_equal. apply IH. intros x Hx. apply Hpre. right. exact Hx.
Qed.

Lemma strict_eq_num_false v id :
  v <> VNum id -> strict_eq_num v (Some id) = false.
Proof.
  intros Hne. destruct v; simpl; try reflexivity.
  apply Z.eqb_neq. intros ->. apply Hne. reflexivity.
Qed.

Lemma strict_eq_num_true id : strict_eq_num (VNum id) (Some id) = true.
Proof. simpl. apply Z.eqb_refl. Qed.

Section FirstMatch.
Variables (id : Z) (before after : list obj) (o : obj).
Hypothesis Hid : lookup "id" o = VNum id.
Hypothesis Hbefore : forall x, In x before -> lookup "id" x <> VNum id.

Lemma findOrder_first : findOrder (Some id) (before ++ o :: after) = Some o.
Proof using Hid Hbefore.
  unfold findOrder. induction before as [| x l IH]; simpl.
  - rewrite Hid, strict_eq_num_true. reflexivity.
  - rewrite strict_eq_num_false by (apply Hbefore; left; reflexivity).
    apply IH. intros y Hy. apply Hbefore. right. exact Hy.
Qed.

Lemma updateFirst_first f :
  updateFirst (Some id) f (before ++ o :: after) = before ++ f o :: after.
Proof using Hid Hbefore.
  induction before as [| x l IH]; simpl.
  - rewrite Hid, strict_eq_num_true. reflexivity.
  - rewrite strict_eq_num_false by (apply Hbefore; left; reflexivity).
    f_equal. apply IH. intros y Hy. apply Hbefore. right. exact Hy.
Qed.
End FirstMatch.

Lemma applyUpdate_other reqBody o k :
  k <> "status" -> k <> "notes" ->
  lookup k (applyUpdate reqBody o) = lookup k o.
Proof.
  intros Hs Hn. unfold applyUpdate.
  assert (H1 : lookup k (if truthy (get reqBody "status")
                         then assign "status" (get reqBody "status") o else o)
               = lookup k o).
  { destruct (truthy (get reqBody "status")); [| reflexivity].
    apply lookup_assign_other. exact Hs. }
  destruct (get reqBody "notes"); try exact H1;
    rewrite lookup_assign_other by exact Hn; exact H1.
Qed.

Lemma applyUpdate_status reqBody o :
  lookup "status" (applyUpdate reqBody o)
  = if truthy (get reqBody "status") then get reqBody "status"
    else lookup "status" o.
Proof.
  unfold applyUpdate.
  assert (H1 : lookup "status"
                 (if truthy (get reqBody "status")
                  then assign "status" (get reqBody "status") o else o)
               = if truthy (get reqBody "status") then get reqBody "status"
                 else lookup "status" o).
  { destruct (truthy (get reqBody "status")); [| reflexivity].
    apply lookup_assign_same. }
  destruct (get reqBody "notes"); try exact H1;
    rewrite lookup_assign_other by discriminate; exact H1.
Qed.

Lemma applyUpdate_notes reqBody o :
  lookup "notes" (applyUpdate reqBody o)
  = match get reqBody "notes" with
    | VUndef => lookup "notes" o
    | notes => notes
    end.
Proof.
  unfold applyUpdate.
  destruct (get reqBody "notes"); try apply lookup_assign_same.
  destruct (truthy (get reqBody "status")); [| reflexivity].
  apply lookup_assign_other. discriminate.
Qed.

Lemma putOrder_found id reqBody wo w before after o :
  orders (mem w) = before ++ o :: after ->
  lookup "id" o = VNum id ->
  (forall x, In x before -> lookup "id" x <> VNum id) ->
  nullish reqBody = false ->
  let l' := before ++ applyUpdate reqBody o :: after in
  putOrder (Some id) reqBody wo w =
  (Ret (json (VObj [("success", VBool true);
                    ("order", VObj (applyUpdate reqBody o))])),
   mkWorld (set_orders l' (mem w))
     (set_ordersFile (after_write wo (map jsonOfObj l') (ordersFile (fs w)))
        (fs w))).
Proof.
  intros Ho Hid Hb Hn l'. destruct w as [m d]. simpl in Ho.
  unfold putOrder, try_catch, bind, readMem. cbn [mem fs].
  rewrite Ho, (findOrder_first id before after o Hid Hb).
  unfold prop. rewrite Hn. unfold ret at 1, writeMem. cbn [mem fs].
  rewrite (updateFirst_first id before after o Hid Hb).
  rewrite saveOrders_eq. cbn [mem fs set_orders orders]. reflexivity.
Qed.

(** C8, as the code has it.  For an existing Order (the first one with
    the id), PUT /api/orders/:id assigns [status] when the body carries a
    truthy one and [notes] when the body carries one other than
    undefined; every other property of that Order, every other Order,
    the catalog and the Counter are what they were.  With status
    "Shipped" and no notes only [status] changes. *)
Theorem C8_update_changes_only_given_fields :
  forall (id : Z) (reqBody : value) (wo : outcome) (w : world)
         (before after : list obj) (o : obj),
    orders (mem w) = before ++ o :: after ->
    lookup "id" o = VNum id ->
    (forall x, In x before -> lookup "id" x <> VNum id) ->
    nullish reqBody = false ->
    let s := serve (PutOrder (Some id) reqBody wo) w in
    let o' := applyUpdate reqBody o in
    orders (mem (snd s)) = before ++ o' :: after
    /\ products (mem (snd s)) = products (mem w)
    /\ banners (mem (snd s)) = banners (mem w)
    /\ counter (snd s) = counter w
    /\ status (fst s) = 200 /\ returnsOrder (fst s) o'
    /\ (forall k, k <> "status" -> k <> "notes" -> lookup k o' = lookup k o)
    /\ lookup "status" o'
       = (if truthy (get reqBody "status") then get reqBody "status"
          else lookup "status" o)
    /\ lookup "notes" o'
       = match get reqBody "notes" with
         | VUndef => lookup "notes" o
         | notes => notes
         end
    /\ (get reqBody "status" = VUndef -> get reqBody "notes" = VUndef -> o' = o)
    /\ (get reqBody "status" = VStr "Shipped" -> get reqBody "notes" = VUndef ->
        o' = assign "status" (VStr "Shipped") o
        /\ lookup "notes" o' = lookup "notes" o
        /\ forall pre old post,
            o = pre ++ ("status", old) :: post ->
            (forall x, In x pre -> fst x <> "status") ->
            o' = pre ++ ("status", VStr "Shipped") :: post).
Proof.
  intros id reqBody wo w before after o Ho Hid Hb Hn s o'.
  assert (Es : s = (json (VObj [("success", VBool true); ("order", VObj o')]),
                    mkWorld (set_orders (before ++ o' :: after) (mem w))
                      (set_ordersFile
                         (after_write wo (map jsonOfObj (before ++ o' :: after))
                            (ordersFile (fs w))) (fs w)))).
  { subst s o'. unfold serve, handle.
    rewrite (putOrder_found id reqBody wo w before after o Ho Hid Hb Hn).
    reflexivity. }
  rewrite Es. cbn [fst snd mem set_orders orders products banners counter
                   orderIdCounter json status].
  do 6 (split; [reflexivity |]).
  split; [intros k Hs Hk; apply applyUpdate_other; assumption |].
  split; [apply applyUpdate_status |].
  split; [apply applyUpdate_notes |].
  split.
  - intros Hst Hno. subst o'. unfold applyUpdate. rewrite Hst, Hno. reflexivity.
  - intros Hst Hno.
    assert (Eo : o' = assign "status" (VStr "Shipped") o).
    { subst o'. unfold applyUpdate. rewrite Hst, Hno. reflexivity. }
    split; [exact Eo | split].
    + subst o'. rewrite applyUpdate_notes, Hno. reflexivity.
    + intros pre old post Hsplit Hpre. rewrite Eo, Hsplit.
      apply assign_in_place. exact Hpre.
Qed.

Lemma C8_witness :
  orders (mem oneOrderWorld) = [] ++ firstOrder :: []
  /\ lookup "id" firstOrder = VNum 1001
  /\ nullish shippedBody = false
  /\ (let s := serve (PutOrder (Some 1001) shippedBody Written) oneOrderWorld in
      let o' := applyUpdate shippedBody firstOrder in
      orders (mem (snd s)) = [o']
      /\ status (fst s) = 200 /\ returnsOrder (fst s) o'
      /\ lookup "status" o' = VStr "Shipped"
      /\ lookup "notes" o' = lookup "notes" firstOrder
      /\ o' = assign "status" (VStr "Shipped") firstOrder).
Proof.
  split; [reflexivity | split; [reflexivity | split; [reflexivity |]]].
  pose proof (C8_update_changes_only_given_fields 1001 shippedBody Written
                oneOrderWorld [] [] firstOrder eq_refl eq_refl
                (fun x (Hx : In x []) => False_ind _ Hx) eq_refl) as H.
  cbv zeta in H.
  destruct H as (Ho & _ & _ & _ & Hst & Hret & _ & Hs & _ & _ & Hship).
  destruct (Hship eq_refl eq_refl) as (Hass & Hnotes & _).
  cbv zeta.
  split; [exact Ho | split; [exact Hst | split; [exact Hret |]]].
  split; [exact Hs | split; [exact Hnotes | exact Hass]].
Defined.

(** C8 as stated fails: the body provides the status "" and the order
    keeps the status it had. *)
Lemma C8_counterexample :
  let s := serve (PutOrder (Some 1001) emptyStatusBody Written) oneOrderWorld in
  get emptyStatusBody "status" = VStr ""
  /\ status (fst s) = 200
  /\ orders (mem (snd s)) = [firstOrder]
  /\ lookup "status" firstOrder = VStr "Pending"
  /\ ~ (forall o', orders (mem (snd s)) = [o'] ->
        lookup "status" o' = get emptyStatusBody "status").
Proof.
  cbv zeta.
  split; [reflexivity | split; [reflexivity | split; [reflexivity |]]].
  split; [reflexivity |].
  intros H. specialize (H firstOrder eq_refl). discriminate H.
Qed.

(** ** One request and the counter *)

Lemma pushed_none w : pushed w w = [].
Proof. unfold pushed. apply skipn_all. Qed.

Lemma skipn_length_app {A} (l x : list A) : skipn (List.length l) (l ++ x) = x.
Proof. induction l as [| a l IH]; simpl; [reflexivity | exact IH]. Qed.

Ltac run_handler :=
  unfold serve, handle, getData, postData, getOrders, getOrder, putOrder,
    deleteOrder, try_catch, bind, prop, readMem, writeMem, ret, throw;
  cbn [mem fs].

(** Only POST /api/orders writes the counter. *)
Lemma serve_counter_other r w :
  (forall p ms iso wo wc, r <> PostOrder p ms iso wo wc) ->
  counter (snd (serve r w)) = counter w.
Proof.
  intros Hr. destruct w as [m d]. unfold counter.
  destruct r as [| reqBody wp wb | | p ms iso wo wc | id | id reqBody wo | id wo].
  - reflexivity.
  - run_handler. destruct (nullish reqBody); [reflexivity |]. cbn [mem fs].
    fold (@ret bool) (@throw response).
    rewrite saveProducts_eq. cbn [mem fs]. rewrite saveBanners_eq. cbn [mem fs].
    destruct wp, wb; reflexivity.
  - reflexivity.
  - exfalso. apply (Hr p ms iso wo wc). reflexivity.
  - run_handler. destruct (findOrder id (orders m)); reflexivity.
  - run_handler. destruct (findOrder id (orders m)); [| reflexivity].
    destruct (nullish reqBody); [reflexivity |]. cbn [mem fs].
    rewrite saveOrders_eq. reflexivity.
  - run_handler. destruct (findIndex id (orders m)); [| reflexivity].
    rewrite saveOrders_eq. reflexivity.
Qed.

(** One request: either no id is allocated and the counter stays, or the
    id is the counter and the counter is incremented. *)
Lemma serve_allocates r w :
  (allocated r w = [] /\ counter (snd (serve r w)) = counter w)
  \/ (allocated r w = [VNum (counter w)]
      /\ counter (snd (serve r w)) = increment (counter w)).
Proof.
  destruct r as [| reqBody wp wb | | p ms iso wo wc | id | id reqBody wo | id wo];
    try (left; split; [reflexivity | apply serve_counter_other; discriminate]).
  unfold allocated. rewrite serve_postOrder.
  destruct (nullish p) eqn:Hn.
  - destruct (postOrder_nullish p ms iso wo wc w Hn) as [msg ->].
    left. cbn [snd]. rewrite pushed_none. split; reflexivity.
  - destruct (passesValidation p) eqn:Hv.
    + rewrite (postOrder_valid _ _ _ _ _ _ Hv). right. cbn [snd].
      unfold pushed. cbn [mem withOrder orders orderIdCounter counter].
      rewrite skipn_length_app. split; reflexivity.
    + rewrite (postOrder_invalid _ _ _ _ _ _ Hn Hv). left. cbn [snd].
      rewrite pushed_none. split; reflexivity.
Qed.

Lemma serve_counter_grows r w : counter w <= counter (snd (serve r w)).
Proof.
  destruct (serve_allocates r w) as [[_ ->] | [_ ->]];
    [lia | apply increment_grows].
Qed.

Lemma requests_counter_grows rs :
  forall w, counter w <= counter (exec (map Request rs) w).
Proof.
  induction rs as [| r rs IH]; intros w; [simpl; lia |].
  cbn [map exec step]. specialize (IH (snd (serve r w))).
  pose proof (serve_counter_grows r w). lia.
Qed.




(** ** initializeStorage, loader by loader *)

Lemma loadOrders_eq e w :
  loadOrders e w =
  (Ret tt,
   match ordersFile (fs w) with
   | Doc l => mkWorld (set_orders l (mem w)) (fs w)
   | _ =>
       mkWorld (set_orders [] (mem w))
         (set_ordersFile (after_write (wOrders e) [] (ordersFile (fs w))) (fs w))
   end).
Proof.
  destruct w as [m [fo fp fb fc]].
  unfold loadOrders, try_catch, bind, readJson, writeMem, ret. cbn [fs mem].
  cbn [ordersFile]. destruct fo; try reflexivity; rewrite saveOrders_eq; reflexivity.
Qed.

(** Without a products.json that parses to something other than [null]
    the loader throws, and no default is assigned or saved. *)
Lemma loadProducts_eq e w :
  loadProducts e w =
  match productsFile (fs w) with
  | Doc p =>
      (if nullish p
       then Throw (ReferenceError "getDefaultProducts is not defined")
       else Ret tt,
       mkWorld (set_products p (mem w)) (fs w))
  | _ => (Throw (ReferenceError "getDefaultProducts is not defined"), w)
  end.
Proof.
  destruct w as [m [fo fp fb fc]].
  unfold loadProducts, getDefaultProducts, try_catch, bind, readJson, writeMem,
    prop, throw, ret.
  cbn [fs mem].
  cbn [productsFile]. destruct fp as [| | p]; try reflexivity.
  destruct (nullish p); reflexivity.
Qed.

Lemma loadBanners_eq e w :
  loadBanners e w =
  match bannersFile (fs w) with
  | Doc b =>
      (if nullish b
       then Throw (ReferenceError "getDefaultBanners is not defined")
       else Ret tt,
       mkWorld (set_banners b (mem w)) (fs w))
  | _ => (Throw (ReferenceError "getDefaultBanners is not defined"), w)
  end.
Proof.
  destruct w as [m [fo fp fb fc]].
  unfold loadBanners, getDefaultBanners, try_catch, bind, readJson, writeMem,
    prop, throw, ret.
  cbn [fs mem].
  cbn [bannersFile]. destruct fb as [| | b]; try reflexivity.
  destruct (nullish b); reflexivity.
Qed.

Lemma loadCounter_eq e w :
  loadCounter e w =
  (Ret tt,
   match counterFile (fs w) with
   | Doc c => mkWorld (set_orderIdCounter (counterOrDefault c) (mem w)) (fs w)
   | _ =>
       mkWorld (mem w)
         (set_counterFile
            (after_write (wCounter e) (Some (orderIdCounter (mem w)))
               (counterFile (fs w))) (fs w))
   end).
Proof.
  destruct w as [m [fo fp fb fc]].
  unfold loadCounter, try_catch, bind, readJson, writeMem, ret. cbn [fs mem].
  cbn [counterFile]. destruct fc; try reflexivity; rewrite saveCounter_eq; reflexivity.
Qed.

Ltac run_start :=
  unfold start, initializeStorage, initializeStorage_try, mkdir, try_catch, bind,
    boot;
  repeat first
    [ rewrite loadOrders_eq | rewrite loadProducts_eq | rewrite loadBanners_eq
    | rewrite loadCounter_eq
    | progress cbn [fs mem ordersFile productsFile bannersFile counterFile
                    set_ordersFile set_productsFile set_bannersFile
                    set_counterFile snd fst ret throw mkdirOk] ].


(** ** The catalog through the files (C9) *)

(** Induction on values that reaches inside arrays and objects. *)
Lemma value_nested_ind (P : value -> Prop) :
  P VUndef -> P VNull -> (forall b, P (VBool b)) -> (forall n, P (VNum n)) ->
  (forall s, P (VStr s)) ->
  (forall l, Forall P l -> P (VArr l)) ->
  (forall o, Forall (fun kv => P (snd kv)) o -> P (VObj o)) ->
  (forall negative, P (VInf negative)) ->
  forall v, P v.
Proof.
  intros HU HN HB HZ HS HA HO HI.
  fix IH 1. intros [| | b | n | s | l | o | negative].
  - exact HU.
  - exact HN.
  - apply HB.
  - apply HZ.
  - apply HS.
  - apply HA. induction l as [| x l IHl]; constructor; [apply IH | exact IHl].
  - apply HO. induction o as [| [k x] o IHo]; constructor; [apply IH | exact IHo].
  - apply HI.
Qed.

(** Writing a JSON value and parsing it back gives the value. *)
Lemma jsonOf_json v : is_json v = true -> jsonOf v = v.
Proof.
  induction v as [| | b | n | s | l IHl | o IHo | negative]
    using value_nested_ind;
    try reflexivity; try (intros H; discriminate H).
  - cbn [is_json jsonOf]. intros Hall. f_equal.
    induction IHl as [| x l Hx Hl IH]; [reflexivity |].
    cbn [forallb] in Hall. apply andb_prop in Hall as [Hjx Hjl].
    cbn [map]. rewrite (IH Hjl). f_equal.
    destruct x; try discriminate Hjx; try reflexivity; exact (Hx Hjx).
  - cbn [is_json jsonOf]. intros Hall. f_equal.
    induction IHo as [| [k x] o Hx Ho IH]; [reflexivity |].
    cbn [forallb] in Hall. apply andb_prop in Hall as [Hjx Hjo].
    cbn [json_props]. cbn [json_props] in IH. rewrite (IH Hjo).
    cbn [snd] in Hx.
    destruct x; try discriminate Hjx; try reflexivity;
      rewrite (Hx Hjx); reflexivity.
Qed.

Lemma postData_eq reqBody wp wb w :
  nullish reqBody = false ->
  let m' := set_banners (or_else (get reqBody "banners") (VArr []))
              (set_products (or_else (get reqBody "products") (VArr [])) (mem w)) in
  postData reqBody wp wb w =
  (Ret (if succeeded wp && succeeded wb
        then json (VObj [("success", VBool true);
                         ("message", VStr "Data saved successfully")])
        else mkResponse 500 (VObj [("success", VBool false);
                                   ("message", VStr "Failed to save data")])),
   mkWorld m'
     (set_bannersFile
        (after_write wb (jsonOf (banners m')) (bannersFile (fs w)))
        (set_productsFile
           (after_write wp (jsonOf (products m')) (productsFile (fs w)))
           (fs w)))).
Proof.
  intros Hn m'. subst m'. destruct w as [m [fo fp fb fc]].
  unfold postData, try_catch, bind, prop. rewrite Hn.
  unfold ret, throw, writeMem. cbn [mem fs].
  rewrite saveProducts_eq. cbn [mem fs]. rewrite saveBanners_eq. cbn [mem fs].
  destruct wp, wb; reflexivity.
Qed.


(** ** Starting without files (C2, C3) *)

Lemma start_emptyDisk e :
  start e emptyDisk
  = mkWorld initialMemory
      (if mkdirOk e
       then mkDisk (after_write (wOrders e) [] Absent) Absent Absent Absent
       else emptyDisk).
Proof.
  destruct e as [mk wo wp wb wc]. destruct mk; [| reflexivity].
  run_start. reflexivity.
Qed.

(** C2, on the code.  Started where none of the four files exists,
    [initializeStorage] resets and saves the orders, then stops at the
    call of the undeclared [getDefaultProducts]: GET /api/orders returns
    the empty array and the Counter is 1001, but GET /api/data returns
    the empty arrays the variables were declared with, no default
    catalog, and products.json, banners.json and counter.json are never
    created. *)
Theorem C2_start_without_files :
  (forall e : init_env,
      let w := start e emptyDisk in
      fst (getOrders w) = Ret (json (VArr []))
      /\ counter w = 1001
      /\ fst (getData w) = Ret (json emptyCatalog)
      /\ productsFile (fs w) = Absent
      /\ bannersFile (fs w) = Absent
      /\ counterFile (fs w) = Absent)
  /\ initializeStorage_try allGood (boot emptyDisk)
     = (Throw (ReferenceError "getDefaultProducts is not defined"),
        mkWorld initialMemory (mkDisk (Doc []) Absent Absent Absent)).
Proof.
  split; [| reflexivity].
  intros e w. subst w. rewrite start_emptyDisk.
  destruct (mkdirOk e); repeat split.
Qed.

(** C3, on the code.  Started where no file exists, memory and files
    differ whatever the writes do: the products, banners and counter of
    memory have no file.  Started on a counter.json without a usable
    [orderIdCounter], the Counter of memory is 1001 and the file is left
    as it was. *)
Theorem C3_start_leaves_memory_and_files_apart :
  (forall e : init_env, ~ inSync (start e emptyDisk))
  /\ (let w := start allGood emptyDisk in
      ordersFile (fs w) = Doc (map jsonOfObj (orders (mem w)))
      /\ products (mem w) = VArr [] /\ productsFile (fs w) = Absent
      /\ banners (mem w) = VArr [] /\ bannersFile (fs w) = Absent
      /\ counter w = 1001 /\ counterFile (fs w) = Absent)
  /\ (let w := start allGood counterlessDisk in
      counter w = 1001
      /\ counterFile (fs w) = Doc None
      /\ ~ inSync w).
Proof.
  split; [| split].
  - intros e (_ & Hp & _). rewrite start_emptyDisk in Hp.
    destruct (mkdirOk e); discriminate Hp.
  - cbv zeta. repeat split.
  - cbv zeta. split; [reflexivity | split; [reflexivity |]].
    intros (_ & _ & _ & Hc). discriminate Hc.
Qed.

(** ** Flushing

    When the four writes of a shutdown succeed, the files hold what the
    memory holds. *)
Lemma flushAll_inSync w : inSync (snd (flushAll Written Written Written Written w)).
Proof.
  destruct w as [m [fo fp fb fc]].
  unfold flushAll, bind.
  rewrite saveOrders_eq. cbn [mem fs]. rewrite saveProducts_eq. cbn [mem fs].
  rewrite saveBanners_eq. cbn [mem fs]. rewrite saveCounter_eq.
  repeat split.
Qed.

(** * More of the routes *)

(** ** The handlers in closed form *)

Lemma getOrder_eq id w :
  serve (GetOrder id) w =
  (match findOrder id (orders (mem w)) with
   | Some o => json (VObj o)
   | None => orderNotFound
   end, w).
Proof.
  destruct w as [m d]. run_handler.
  destruct (findOrder id (orders m)); reflexivity.
Qed.

Lemma putOrder_eq id reqBody wo w :
  serve (PutOrder id reqBody wo) w =
  match findOrder id (orders (mem w)) with
  | None => (orderNotFound, w)
  | Some o =>
      if nullish reqBody then (updateFailed, w)
      else
        let l' := updateFirst id (applyUpdate reqBody) (orders (mem w)) in
        (updated (applyUpdate reqBody o),
         mkWorld (set_orders l' (mem w))
           (set_ordersFile
              (after_write wo (map jsonOfObj l') (ordersFile (fs w))) (fs w)))
  end.
Proof.
  destruct w as [m d]. run_handler.
  destruct (findOrder id (orders m)); [| reflexivity].
  destruct (nullish reqBody); [reflexivity |]. cbn [mem fs].
  rewrite saveOrders_eq. reflexivity.
Qed.

Lemma deleteOrder_eq id wo w :
  serve (DeleteOrder id wo) w =
  match findIndex id (orders (mem w)) with
  | None => (orderNotFound, w)
  | Some index =>
      let l' := removeAt index (orders (mem w)) in
      (deleted,
       mkWorld (set_orders l' (mem w))
         (set_ordersFile
            (after_write wo (map jsonOfObj l') (ordersFile (fs w))) (fs w)))
  end.
Proof.
  destruct w as [m d]. run_handler.
  destruct (findIndex id (orders m)); [| reflexivity].
  rewrite saveOrders_eq. reflexivity.
Qed.

Lemma postData_nullish reqBody wp wb w :
  nullish reqBody = true ->
  postData reqBody wp wb w = (Ret dataNotSaved, w).
Proof.
  intros Hn. unfold postData, try_catch, bind, prop. rewrite Hn. reflexivity.
Qed.

Lemma serve_postData reqBody wp wb w :
  serve (PostData reqBody wp wb) w =
  if nullish reqBody then (dataNotSaved, w)
  else
    let m' := set_banners (or_else (get reqBody "banners") (VArr []))
                (set_products (or_else (get reqBody "products") (VArr []))
                   (mem w)) in
    (if succeeded wp && succeeded wb then dataSaved else dataNotSaved,
     mkWorld m'
       (set_bannersFile
          (after_write wb (jsonOf (banners m')) (bannersFile (fs w)))
          (set_productsFile
             (after_write wp (jsonOf (products m')) (productsFile (fs w)))
             (fs w)))).
Proof.
  unfold serve, handle. destruct (nullish reqBody) eqn:Hn.
  - rewrite (postData_nullish _ _ _ _ Hn). reflexivity.
  - rewrite (postData_eq _ _ _ _ Hn). reflexivity.
Qed.

(** POST /api/orders, the three cases in one. *)
Lemma serve_postOrder_eq p ms iso wo wc w :
  (passesValidation p = true
   /\ serve (PostOrder p ms iso wo wc) w =
      (let o := newOrder p (counter w) ms iso in
       let m' := withOrder o (mem w) in
       (answerOf wo wc o,
        mkWorld m'
          (set_counterFile
             (after_write wc (Some (orderIdCounter m')) (counterFile (fs w)))
             (set_ordersFile
                (after_write wo (map jsonOfObj (orders m')) (ordersFile (fs w)))
                (fs w))))))
  \/ (passesValidation p = false /\ snd (serve (PostOrder p ms iso wo wc) w) = w).
Proof.
  rewrite serve_postOrder.
  destruct (passesValidation p) eqn:Hv.
  - left. split; [reflexivity |].
    rewrite (postOrder_valid _ _ _ _ _ _ Hv). reflexivity.
  - right. split; [reflexivity |].
    destruct (nullish p) eqn:Hn.
    + destruct (postOrder_nullish p ms iso wo wc w Hn) as [msg ->]. reflexivity.
    + rewrite (postOrder_invalid _ _ _ _ _ _ Hn Hv). reflexivity.
Qed.

(** ** Looking for an id *)

Lemma noOrderWith_false id l :
  noOrderWith id l ->
  forall o, In o l -> strict_eq_num (lookup "id" o) id = false.
Proof.
  intros Hno o Hin. destruct id as [n |].
  - apply strict_eq_num_false. apply (Hno o n Hin eq_refl).
  - destruct (lookup "id" o); reflexivity.
Qed.

Lemma findOrder_none id l : noOrderWith id l -> findOrder id l = None.
Proof.
  intros Hno. unfold findOrder.
  induction l as [| o l IH]; [reflexivity |]. simpl.
  rewrite (noOrderWith_false id (o :: l) Hno o) by (left; reflexivity).
  apply IH. intros x n Hx. apply Hno. right. exact Hx.
Qed.

Lemma findIndex_none id l : noOrderWith id l -> findIndex id l = None.
Proof.
  intros Hno.
  induction l as [| o l IH]; [reflexivity |]. simpl.
  rewrite (noOrderWith_false id (o :: l) Hno o) by (left; reflexivity).
  rewrite IH; [reflexivity |]. intros x n Hx. apply Hno. right. exact Hx.
Qed.

Lemma findIndex_first id before after o :
  lookup "id" o = VNum id ->
  (forall x, In x before -> lookup "id" x <> VNum id) ->
  findIndex (Some id) (before ++ o :: after) = Some (List.length before).
Proof.
  intros Hid Hb. induction before as [| x l IH]; simpl.
  - rewrite Hid, strict_eq_num_true. reflexivity.
  - rewrite strict_eq_num_false by (apply Hb; left; reflexivity).
    rewrite IH; [reflexivity |]. intros y Hy. apply Hb. right. exact Hy.
Qed.

Lemma removeAt_middle (before after : list obj) o :
  removeAt (List.length before) (before ++ o :: after) = before ++ after.
Proof.
  induction before as [| x l IH]; simpl; [reflexivity |]. rewrite IH. reflexivity.
Qed.

(** X1.  For an id that no order carries, NaN included, GET, PUT and
    DELETE /api/orders/:id answer 404 "Order not found" and leave the
    variables and the files as they were; the body of the PUT is not
    looked at. *)
Theorem unknown_id_is_not_found :
  forall (id : option Z) (reqBody : value) (wo : outcome) (w : world),
    noOrderWith id (orders (mem w)) ->
    serve (GetOrder id) w = (orderNotFound, w)
    /\ serve (PutOrder id reqBody wo) w = (orderNotFound, w)
    /\ serve (DeleteOrder id wo) w = (orderNotFound, w).
Proof.
  intros id reqBody wo w Hno.
  rewrite getOrder_eq, putOrder_eq, deleteOrder_eq.
  rewrite (findOrder_none _ _ Hno), (findIndex_none _ _ Hno).
  repeat split.
Qed.

Lemma unknown_id_witness :
  noOrderWith None (orders (mem oneOrderWorld))
  /\ serve (GetOrder None) oneOrderWorld = (orderNotFound, oneOrderWorld)
  /\ serve (PutOrder None VNull Written) oneOrderWorld
     = (orderNotFound, oneOrderWorld)
  /\ serve (DeleteOrder None Written) oneOrderWorld
     = (orderNotFound, oneOrderWorld).
Proof.
  assert (Hno : noOrderWith None (orders (mem oneOrderWorld))).
  { intros o n _ Hn. discriminate Hn. }
  split; [exact Hno |].
  apply (unknown_id_is_not_found None VNull Written oneOrderWorld Hno).
Defined.

(** X2.  DELETE /api/orders/:id removes the first order with the id and
    nothing else: the orders before and after it keep their places, the
    catalog, the counter and the three other files are untouched, the
    answer is the 200 success response whatever the write does, and
    orders.json is what that write leaves. *)
Theorem delete_removes_first_match :
  forall (id : Z) (wo : outcome) (w : world) (before after : list obj) (o : obj),
    orders (mem w) = before ++ o :: after ->
    lookup "id" o = VNum id ->
    (forall x, In x before -> lookup "id" x <> VNum id) ->
    let s := serve (DeleteOrder (Some id) wo) w in
    fst s = deleted
    /\ orders (mem (snd s)) = before ++ after
    /\ S (List.length (orders (mem (snd s)))) = List.length (orders (mem w))
    /\ products (mem (snd s)) = products (mem w)
    /\ banners (mem (snd s)) = banners (mem w)
    /\ counter (snd s) = counter w
    /\ ordersFile (fs (snd s))
       = after_write wo (map jsonOfObj (before ++ after)) (ordersFile (fs w))
    /\ productsFile (fs (snd s)) = productsFile (fs w)
    /\ bannersFile (fs (snd s)) = bannersFile (fs w)
    /\ counterFile (fs (snd s)) = counterFile (fs w).
Proof.
  intros id wo w before after o Ho Hid Hb s. subst s.
  rewrite deleteOrder_eq, Ho, (findIndex_first id before after o Hid Hb).
  cbv zeta. rewrite removeAt_middle.
  cbn [fst snd mem fs set_orders orders products banners counter orderIdCounter
       set_ordersFile ordersFile productsFile bannersFile counterFile].
  repeat split.
  rewrite !length_app. simpl. lia.
Qed.

Lemma delete_removes_first_match_witness :
  orders (mem twoOrderWorld) = [firstOrder] ++ secondOrder :: []
  /\ lookup "id" secondOrder = VNum 1002
  /\ (let s := serve (DeleteOrder (Some 1002) FailedIntact) twoOrderWorld in
      fst s = deleted
      /\ orders (mem (snd s)) = [firstOrder]
      /\ ordersFile (fs (snd s)) = ordersFile (fs twoOrderWorld)).
Proof.
  split; [reflexivity | split; [reflexivity |]].
  assert (Hb : forall x, In x [firstOrder] -> lookup "id" x <> VNum 1002).
  { intros x [<- | []]. discriminate. }
  pose proof (delete_removes_first_match 1002 FailedIntact twoOrderWorld
                [firstOrder] [] secondOrder eq_refl eq_refl Hb) as H.
  cbv zeta in H. destruct H as (Hr & Ho & _ & _ & _ & _ & Hf & _).
  cbv zeta. split; [exact Hr | split; [exact Ho | exact Hf]].
Defined.

(** X3.  PUT and DELETE /api/orders/:id do not look at the result of
    [saveOrders]: the answer and the variables are the same whether
    orders.json could be written or not, and when the write fails without
    touching the file, the files are as before while the answer still
    reports what the memory now holds. *)
Theorem put_delete_answer_whatever_the_write :
  forall (id : option Z) (reqBody : value) (wo wo' : outcome) (w : world),
    fst (serve (PutOrder id reqBody wo) w) = fst (serve (PutOrder id reqBody wo') w)
    /\ mem (snd (serve (PutOrder id reqBody wo) w))
       = mem (snd (serve (PutOrder id reqBody wo') w))
    /\ fs (snd (serve (PutOrder id reqBody FailedIntact) w)) = fs w
    /\ fst (serve (DeleteOrder id wo) w) = fst (serve (DeleteOrder id wo') w)
    /\ mem (snd (serve (DeleteOrder id wo) w))
       = mem (snd (serve (DeleteOrder id wo') w))
    /\ fs (snd (serve (DeleteOrder id FailedIntact) w)) = fs w.
Proof.
  intros id reqBody wo wo' w. rewrite !putOrder_eq, !deleteOrder_eq.
  destruct w as [m [fo fp fb fc]]. cbn [mem fs].
  destruct (findOrder id (orders m)), (findIndex id (orders m)),
    (nullish reqBody); repeat split.
Qed.

Lemma lookup_id_applyUpdate reqBody o :
  lookup "id" (applyUpdate reqBody o) = lookup "id" o.
Proof. apply applyUpdate_other; discriminate. Qed.

Lemma updateFirst_ids id reqBody l :
  map (lookup "id") (updateFirst id (applyUpdate reqBody) l)
  = map (lookup "id") l.
Proof.
  induction l as [| o l IH]; [reflexivity |]. simpl.
  destruct (strict_eq_num (lookup "id" o) id); simpl.
  - rewrite lookup_id_applyUpdate. reflexivity.
  - rewrite IH. reflexivity.
Qed.

(** X4.  PUT /api/orders/:id never adds, removes or renumbers an order,
    whatever the body says (an [id] in the body is not assigned): the ids
    in memory, in array order, are the same after as before, and so are
    the catalog, the counter and the files other than orders.json. *)
Theorem put_keeps_the_ids :
  forall (id : option Z) (reqBody : value) (wo : outcome) (w : world),
    let w' := snd (serve (PutOrder id reqBody wo) w) in
    orderIds w' = orderIds w
    /\ List.length (orders (mem w')) = List.length (orders (mem w))
    /\ products (mem w') = products (mem w)
    /\ banners (mem w') = banners (mem w)
    /\ counter w' = counter w
    /\ productsFile (fs w') = productsFile (fs w)
    /\ bannersFile (fs w') = bannersFile (fs w)
    /\ counterFile (fs w') = counterFile (fs w).
Proof.
  intros id reqBody wo w w'. subst w'. rewrite putOrder_eq.
  assert (Hlen : forall l : list obj,
             List.length (map (lookup "id") l) = List.length l)
    by (intros l; apply length_map).
  destruct (findOrder id (orders (mem w))); [| repeat split].
  destruct (nullish reqBody); [repeat split |].
  cbv zeta. unfold orderIds.
  cbn [snd mem fs set_orders orders products banners counter orderIdCounter
       set_ordersFile productsFile bannersFile counterFile].
  split; [apply updateFirst_ids |].
  split; [| repeat split].
  rewrite <- (Hlen (updateFirst _ _ _)), updateFirst_ids. apply Hlen.
Qed.

(** ** Unique ids *)

Lemma In_map_removeAt {B} (f : obj -> B) x i l :
  In x (map f (removeAt i l)) -> In x (map f l).
Proof.
  revert i. induction l as [| a l IH]; intros i; [destruct i; exact (fun H => H) |].
  destruct i as [| j]; simpl.
  - intros H. right. exact H.
  - intros [H | H]; [left; exact H | right; exact (IH j H)].
Qed.

Lemma NoDup_map_removeAt {B} (f : obj -> B) i l :
  NoDup (map f l) -> NoDup (map f (removeAt i l)).
Proof.
  revert i. induction l as [| a l IH]; intros i; [destruct i; exact (fun H => H) |].
  simpl. intros Hnd. apply NoDup_cons_iff in Hnd as [Hnin Hnd].
  destruct i as [| j]; [exact Hnd |]. simpl. constructor.
  - intros Hin. apply Hnin. exact (In_map_removeAt f _ j l Hin).
  - apply IH. exact Hnd.
Qed.

Lemma Forall_map_removeAt {B} (f : obj -> B) (P : B -> Prop) i l :
  Forall P (map f l) -> Forall P (map f (removeAt i l)).
Proof.
  rewrite !Forall_forall. intros H x Hx. apply H.
  exact (In_map_removeAt f x i l Hx).
Qed.

Lemma below_counter_fresh (ids : list value) c :
  Forall (fun v => exists n, v = VNum n /\ n < c) ids -> ~ In (VNum c) ids.
Proof.
  rewrite Forall_forall. intros H Hin.
  destruct (H _ Hin) as (n & Hn & Hlt). injection Hn as ->. lia.
Qed.

Lemma serve_wellNumbered r w :
  wellNumbered w -> safeCounter (counter w) -> wellNumbered (snd (serve r w)).
Proof.
  unfold wellNumbered, orderIds, counter. intros [Hnd Hb] Hsafe.
  destruct r as [| reqBody wp wb | | p ms iso wo wc | id | id reqBody wo | id wo].
  - destruct w; split; assumption.
  - rewrite serve_postData. destruct (nullish reqBody); split; assumption.
  - destruct w; split; assumption.
  - destruct (serve_postOrder_eq p ms iso wo wc w) as [[_ ->] | [_ ->]];
      [| split; assumption].
    cbv zeta. cbn [snd mem withOrder orders orderIdCounter].
    rewrite (increment_safe _ Hsafe).
    rewrite map_app. cbn [map lookup String.eqb Ascii.eqb Bool.eqb newOrder].
    split.
    + apply NoDup_app; [exact Hnd | constructor; [intros [] | constructor] |].
      intros a Ha [<- | []]. exact (below_counter_fresh _ _ Hb Ha).
    + apply Forall_app. split.
      * eapply Forall_impl; [| exact Hb]. cbv beta.
        intros v (n & Hv & Hlt). exists n. split; [exact Hv | lia].
      * constructor; [| constructor].
        exists (counter w). unfold counter. split; [reflexivity | lia].
  - rewrite getOrder_eq. split; assumption.
  - rewrite putOrder_eq.
    destruct (findOrder id (orders (mem w))); [| split; assumption].
    destruct (nullish reqBody); [split; assumption |].
    cbv zeta. cbn [snd mem set_orders orders orderIdCounter].
    rewrite updateFirst_ids. split; assumption.
  - rewrite deleteOrder_eq.
    destruct (findIndex id (orders (mem w))) as [i |]; [| split; assumption].
    cbv zeta. cbn [snd mem set_orders orders orderIdCounter]. split.
    + apply NoDup_map_removeAt. exact Hnd.
    + apply Forall_map_removeAt. exact Hb.
Qed.

(** X5.  If every order in memory has an integer id of its own below the
    counter, the same holds after any sequence of requests along which
    the counter stays a safe integer (from -2^53, and below 2^53 at the
    end): no request creates a second order with an id in use. *)
Theorem requests_keep_ids_unique :
  forall (rs : list request) (w : world),
    wellNumbered w ->
    - 2 ^ 53 <= counter w ->
    counter (exec (map Request rs) w) < 2 ^ 53 ->
    wellNumbered (exec (map Request rs) w).
Proof.
  induction rs as [| r rs IH]; intros w Hw Hlo Hhi; [exact Hw |].
  cbn [map exec step] in Hhi |- *.
  pose proof (serve_counter_grows r w) as Hg.
  pose proof (requests_counter_grows rs (snd (serve r w))) as Hr.
  apply IH; [| lia | exact Hhi].
  apply serve_wellNumbered; [exact Hw |].
  unfold safeCounter. lia.
Qed.

Lemma requests_keep_ids_unique_witness :
  wellNumbered (boot freshDisk)
  /\ - 2 ^ 53 <= counter (boot freshDisk)
  /\ counter (exec (map Request createDeleteCreate) (boot freshDisk)) < 2 ^ 53
  /\ wellNumbered (exec (map Request createDeleteCreate) (boot freshDisk)).
Proof.
  assert (H0 : wellNumbered (boot freshDisk)).
  { split; constructor. }
  assert (Hlo : - 2 ^ 53 <= counter (boot freshDisk)) by discriminate.
  assert (Hhi : counter (exec (map Request createDeleteCreate) (boot freshDisk))
                < 2 ^ 53) by reflexivity.
  split; [exact H0 | split; [exact Hlo | split; [exact Hhi |]]].
  apply (requests_keep_ids_unique createDeleteCreate (boot freshDisk) H0 Hlo Hhi).
Defined.

(** X6.  An order that POST /api/orders pushed is the one GET
    /api/orders/:id returns for its id, when the ids in memory were below
    the counter; this is so whether or not the writes of the creation
    succeeded. *)
Theorem create_then_get :
  forall (p : value) (ms : Z) (iso : string) (wo wc : outcome) (w : world),
    wellNumbered w ->
    passesValidation p = true ->
    let w' := snd (serve (PostOrder p ms iso wo wc) w) in
    serve (GetOrder (Some (counter w))) w'
    = (json (VObj (newOrder p (counter w) ms iso)), w').
Proof.
  intros p ms iso wo wc w [_ Hb] Hv w'. subst w'.
  rewrite serve_postOrder, (postOrder_valid _ _ _ _ _ _ Hv). cbn [snd].
  rewrite getOrder_eq. cbn [mem withOrder orders].
  rewrite (findOrder_first (counter w) (orders (mem w)) []
             (newOrder p (counter w) ms iso)); [reflexivity | reflexivity |].
  intros x Hx Heq.
  apply (below_counter_fresh _ _ Hb). unfold orderIds.
  rewrite <- Heq. apply in_map. exact Hx.
Qed.

Lemma create_then_get_witness :
  wellNumbered (boot freshDisk)
  /\ passesValidation scenarioPayload = true
  /\ (let w' := snd (serve (PostOrder scenarioPayload 5 "t1" FailedIntact
                             FailedTruncated) (boot freshDisk)) in
      serve (GetOrder (Some (counter (boot freshDisk)))) w'
      = (json (VObj (newOrder scenarioPayload (counter (boot freshDisk)) 5 "t1")),
         w')).
Proof.
  assert (H0 : wellNumbered (boot freshDisk)).
  { split; constructor. }
  split; [exact H0 | split; [reflexivity |]].
  apply (create_then_get scenarioPayload 5 "t1" FailedIntact FailedTruncated
           (boot freshDisk) H0 eq_refl).
Defined.

Lemma first_match_split (id : Z) (l : list obj) :
  (exists o, In o l /\ lookup "id" o = VNum id) ->
  exists before o after,
    l = before ++ o :: after
    /\ lookup "id" o = VNum id
    /\ forall x, In x before -> lookup "id" x <> VNum id.
Proof.
  induction l as [| a l IH]; intros (o & Hin & Hid); [destruct Hin |].
  destruct (strict_eq_num (lookup "id" a) (Some id)) eqn:E.
  - exists [], a, l. split; [reflexivity | split; [| intros x []]].
    destruct (lookup "id" a); try discriminate E.
    simpl in E. apply Z.eqb_eq in E. subst. reflexivity.
  - assert (Ha : lookup "id" a <> VNum id).
    { intros Heq. rewrite Heq, strict_eq_num_true in E. discriminate E. }
    destruct Hin as [-> | Hin]; [contradiction |].
    destruct (IH (ex_intro _ o (conj Hin Hid))) as (b & o' & af & Hl & Ho' & Hb).
    exists (a :: b), o', af. split; [rewrite Hl; reflexivity | split; [exact Ho' |]].
    intros x [<- | Hx]; [exact Ha | exact (Hb x Hx)].
Qed.

(** X7.  When the ids in memory are pairwise different, deleting the
    order with an id makes the array one shorter, and a GET for that id
    afterwards answers 404. *)
Theorem delete_then_get_is_not_found :
  forall (id : Z) (wo : outcome) (w : world),
    NoDup (orderIds w) ->
    (exists o, In o (orders (mem w)) /\ lookup "id" o = VNum id) ->
    let w' := snd (serve (DeleteOrder (Some id) wo) w) in
    serve (GetOrder (Some id)) w' = (orderNotFound, w')
    /\ S (List.length (orders (mem w'))) = List.length (orders (mem w)).
Proof.
  intros id wo w Hnd Hex w'.
  destruct (first_match_split id _ Hex) as (before & o & after & Hl & Hid & Hb).
  assert (Hw' : orders (mem w') = before ++ after).
  { subst w'. rewrite deleteOrder_eq, Hl, (findIndex_first id before after o Hid Hb).
    cbv zeta. rewrite removeAt_middle. reflexivity. }
  split.
  - rewrite getOrder_eq, Hw', findOrder_none; [reflexivity |].
    intros x n Hx Hn Heq. injection Hn as <-.
    unfold orderIds in Hnd. rewrite Hl, map_app in Hnd. cbn [map] in Hnd.
    apply NoDup_remove_2 in Hnd. apply Hnd.
    rewrite Hid, <- Heq, <- map_app. apply in_map. exact Hx.
  - rewrite Hw', Hl, !length_app. simpl. lia.
Qed.

Lemma delete_then_get_witness :
  NoDup (orderIds twoOrderWorld)
  /\ (exists o, In o (orders (mem twoOrderWorld)) /\ lookup "id" o = VNum 1001)
  /\ (let w' := snd (serve (DeleteOrder (Some 1001) Written) twoOrderWorld) in
      serve (GetOrder (Some 1001)) w' = (orderNotFound, w')
      /\ S (List.length (orders (mem w'))) = List.length (orders (mem twoOrderWorld))).
Proof.
  assert (Hnd : NoDup (orderIds twoOrderWorld)).
  { change (NoDup [VNum 1001; VNum 1002]).
    constructor; [intros [H | []]; discriminate H |].
    constructor; [intros [] | constructor]. }
  assert (Hex : exists o, In o (orders (mem twoOrderWorld))
                          /\ lookup "id" o = VNum 1001).
  { exists firstOrder. split; [left; reflexivity | reflexivity]. }
  split; [exact Hnd | split; [exact Hex |]].
  apply (delete_then_get_is_not_found 1001 Written twoOrderWorld Hnd Hex).
Defined.

(** ** Starting, in closed form *)

Lemma start_eq e d :
  start e d = if mkdirOk e then afterProducts e (afterOrders e d) else boot d.
Proof.
  destruct e as [mk wo wp wb wc], d as [fo fp fb fc].
  destruct mk; [| reflexivity].
  unfold afterProducts, afterBanners, afterCounter, afterOrders.
  cbn [mkdirOk ordersFile wOrders wCounter].
  destruct fp as [| | p]; [| | destruct (nullish p) eqn:Hp];
    try (run_start; destruct fo; run_start; try rewrite Hp; reflexivity).
  destruct fb as [| | b]; [| | destruct (nullish b) eqn:Hb];
    try (run_start; destruct fo; run_start; rewrite Hp; run_start;
         try rewrite Hb; reflexivity).
  run_start; destruct fo; run_start; rewrite Hp; run_start; rewrite Hb;
    run_start; destruct fc; reflexivity.
Qed.

(** X8.  Once the data directory is there, the orders are loaded from
    orders.json whatever the three other files hold, a missing or broken
    catalog included; a missing or broken orders.json gives the empty
    array and is rewritten as far as the write goes. *)
Theorem orders_loaded_whatever_the_catalog :
  forall (e : init_env) (d : disk),
    mkdirOk e = true ->
    orders (mem (start e d))
    = match ordersFile d with
      | Doc l => l
      | _ => []
      end
    /\ ordersFile (fs (start e d))
       = match ordersFile d with
         | Doc l => Doc l
         | f => after_write (wOrders e) [] f
         end.
Proof.
  intros e d Hmk. rewrite start_eq, Hmk.
  destruct d as [fo fp fb fc].
  unfold afterProducts, afterBanners, afterCounter, afterOrders.
  cbn [ordersFile].
  destruct fo, fp as [| | p], fb as [| | b], fc;
    cbn [fs mem productsFile bannersFile counterFile set_ordersFile];
    try destruct (nullish p); try destruct (nullish b);
    cbn [fs mem productsFile bannersFile counterFile set_ordersFile];
    split; reflexivity.
Qed.

Lemma orders_loaded_witness :
  mkdirOk allGood = true
  /\ orders (mem (start allGood (mkDisk (Doc [firstOrder]) Absent Corrupt Absent)))
     = [firstOrder]
  /\ ordersFile (fs (start allGood (mkDisk (Doc [firstOrder]) Absent Corrupt Absent)))
     = Doc [firstOrder].
Proof.
  split; [reflexivity |].
  apply (orders_loaded_whatever_the_catalog allGood
           (mkDisk (Doc [firstOrder]) Absent Corrupt Absent) eq_refl).
Defined.

(** X9.  [initializeStorage] never writes products.json or
    banners.json, and the products it leaves in memory are the document
    of products.json when the directory is there and the file parses,
    and the empty array the variable was declared with otherwise. *)
Theorem start_never_writes_the_catalog :
  forall (e : init_env) (d : disk),
    productsFile (fs (start e d)) = productsFile d
    /\ bannersFile (fs (start e d)) = bannersFile d
    /\ products (mem (start e d))
       = (if mkdirOk e
          then match productsFile d with
               | Doc p => p
               | _ => VArr []
               end
          else VArr []).
Proof.
  intros e d. rewrite start_eq.
  destruct (mkdirOk e); [| repeat split].
  destruct d as [fo fp fb fc].
  unfold afterProducts, afterBanners, afterCounter, afterOrders.
  cbn [ordersFile].
  destruct fo, fp as [| | p], fb as [| | b], fc;
    cbn [fs mem productsFile bannersFile counterFile set_ordersFile];
    try destruct (nullish p); try destruct (nullish b);
    cbn [fs mem productsFile bannersFile counterFile set_ordersFile];
    repeat split.
Qed.

(** ** Memory and files in step *)

Lemma serve_inSync r w :
  inSync w -> writesSucceed r = true -> inSync (snd (serve r w)).
Proof.
  intros Hs Hw.
  destruct r as [| reqBody wp wb | | p ms iso wo wc | id | id reqBody wo | id wo].
  - destruct w; exact Hs.
  - rewrite serve_postData. destruct (nullish reqBody); [exact Hs |].
    cbn [writesSucceed] in Hw. apply andb_prop in Hw as [Hp Hb].
    destruct wp; try discriminate Hp. destruct wb; try discriminate Hb.
    destruct w as [m [fo fp fb fc]]. destruct Hs as (Ho & _ & _ & Hc).
    cbn in Ho, Hc. cbv zeta. repeat split; assumption.
  - destruct w; exact Hs.
  - destruct (serve_postOrder_eq p ms iso wo wc w) as [[_ ->] | [_ ->]];
      [| exact Hs].
    cbn [writesSucceed] in Hw. apply andb_prop in Hw as [Ho Hc].
    destruct wo; try discriminate Ho. destruct wc; try discriminate Hc.
    destruct w as [m [fo fp fb fc]]. destruct Hs as (_ & Hp & Hb & _).
    cbn in Hp, Hb. cbv zeta. repeat split; assumption.
  - rewrite getOrder_eq. exact Hs.
  - rewrite putOrder_eq.
    destruct (findOrder id (orders (mem w))); [| exact Hs].
    destruct (nullish reqBody); [exact Hs |].
    cbn [writesSucceed] in Hw. destruct wo; try discriminate Hw.
    destruct w as [m [fo fp fb fc]]. destruct Hs as (_ & Hp & Hb & Hc).
    cbn in Hp, Hb, Hc. cbv zeta. repeat split; assumption.
  - rewrite deleteOrder_eq.
    destruct (findIndex id (orders (mem w))); [| exact Hs].
    cbn [writesSucceed] in Hw. destruct wo; try discriminate Hw.
    destruct w as [m [fo fp fb fc]]. destruct Hs as (_ & Hp & Hb & Hc).
    cbn in Hp, Hb, Hc. cbv zeta. repeat split; assumption.
Qed.

(** X10.  When the four files hold what the memory holds, they still do
    after any sequence of requests all of whose writes succeed. *)
Theorem successful_writes_keep_in_sync :
  forall (rs : list request) (w : world),
    inSync w ->
    forallb writesSucceed rs = true ->
    inSync (exec (map Request rs) w).
Proof.
  induction rs as [| r rs IH]; intros w Hs Hw; [exact Hs |].
  cbn [forallb] in Hw. apply andb_prop in Hw as [Hr Hrs].
  cbn [map exec step]. apply IH; [| exact Hrs].
  apply serve_inSync; assumption.
Qed.

Lemma successful_writes_witness :
  inSync (boot freshDisk)
  /\ forallb writesSucceed createDeleteCreate = true
  /\ inSync (exec (map Request createDeleteCreate) (boot freshDisk)).
Proof.
  assert (H0 : inSync (boot freshDisk)) by (repeat split).
  split; [exact H0 | split; [reflexivity |]].
  apply (successful_writes_keep_in_sync createDeleteCreate (boot freshDisk) H0
           eq_refl).
Defined.

Lemma is_json_jsonOf v : v <> VUndef -> is_json (jsonOf v) = true.
Proof.
  induction v as [| | b | n | s | l IHl | o IHo | negative]
    using value_nested_ind;
    intros Hv; try reflexivity.
  - contradiction.
  - cbn [jsonOf is_json]. clear Hv.
    induction IHl as [| x l Hx Hl IH]; [reflexivity |].
    cbn [map forallb]. rewrite IH, andb_true_r.
    destruct x; try reflexivity; apply Hx; discriminate.
  - cbn [jsonOf is_json]. clear Hv.
    induction IHo as [| [k x] o Hx Ho IH]; [reflexivity |].
    cbn [json_props]. cbn [snd] in Hx.
    destruct x; try exact IH; cbn [forallb]; cbn [json_props] in IH;
      rewrite IH, andb_true_r; try reflexivity; apply Hx; discriminate.
Qed.

Lemma jsonOf_idempotent v : jsonOf (jsonOf v) = jsonOf v.
Proof.
  destruct v; try reflexivity; apply jsonOf_json, is_json_jsonOf; discriminate.
Qed.

Lemma jsonOfObj_idempotent o : jsonOfObj (jsonOfObj o) = jsonOfObj o.
Proof.
  pose proof (jsonOf_idempotent (VObj o)) as H. cbn [jsonOf] in H.
  injection H as H. exact H.
Qed.

Lemma inSync_jsonMemory m d :
  inSync (mkWorld m d) -> inSync (mkWorld (jsonMemory m) d).
Proof.
  intros (Ho & Hp & Hb & Hc). cbn [mem fs] in *.
  unfold inSync, jsonMemory. cbn [mem fs orders products banners orderIdCounter].
  rewrite map_map, !jsonOf_idempotent.
  rewrite (map_ext _ _ jsonOfObj_idempotent).
  repeat split; assumption.
Qed.

Lemma start_on_written_files e m d :
  inSync (mkWorld m d) ->
  mkdirOk e = true ->
  savedAsNull (products m) = false ->
  savedAsNull (banners m) = false ->
  orderIdCounter m <> 0 ->
  start e d = mkWorld (jsonMemory m) d.
Proof.
  intros (Ho & Hp & Hb & Hc) Hmk Hnp Hnb Hc0. cbn [mem fs] in *.
  rewrite start_eq, Hmk. destruct d as [fo fp fb fc].
  cbn [ordersFile productsFile bannersFile counterFile] in *. subst fo fp fb fc.
  unfold afterProducts, afterBanners, afterCounter, afterOrders.
  cbn [ordersFile productsFile bannersFile counterFile fs mem].
  unfold savedAsNull in Hnp, Hnb. rewrite Hnp, Hnb. cbv zeta.
  cbn [ordersFile productsFile bannersFile counterFile fs mem].
  unfold counterOrDefault. apply Z.eqb_neq in Hc0. rewrite Hc0.
  reflexivity.
Qed.

(** X11.  Starting the process on files that hold what the memory held
    gives that memory back, each collection as its JSON document (a
    property whose value was undefined is gone), provided the directory
    is there, neither catalog value is one that is written as null (null
    or an infinite number) and the counter is not 0; the files are not
    touched and still hold what the memory holds. *)
Theorem start_restores_a_synced_store :
  forall (e : init_env) (w : world),
    inSync w ->
    mkdirOk e = true ->
    savedAsNull (products (mem w)) = false ->
    savedAsNull (banners (mem w)) = false ->
    counter w <> 0 ->
    start e (fs w) = mkWorld (jsonMemory (mem w)) (fs w)
    /\ inSync (start e (fs w)).
Proof.
  intros e [m d] Hs Hmk Hnp Hnb Hc0. cbn [mem fs] in *.
  rewrite (start_on_written_files e m d Hs Hmk Hnp Hnb Hc0).
  split; [reflexivity | apply inSync_jsonMemory; exact Hs].
Qed.

Lemma start_restores_witness :
  inSync oneOrderWorld
  /\ mkdirOk allGood = true
  /\ savedAsNull (products (mem oneOrderWorld)) = false
  /\ savedAsNull (banners (mem oneOrderWorld)) = false
  /\ counter oneOrderWorld <> 0
  /\ start allGood (fs oneOrderWorld)
     = mkWorld (jsonMemory (mem oneOrderWorld)) (fs oneOrderWorld)
  /\ inSync (start allGood (fs oneOrderWorld)).
Proof.
  assert (Hs : inSync oneOrderWorld) by (repeat split).
  assert (Hc : counter oneOrderWorld <> 0) by discriminate.
  split; [exact Hs |].
  split; [reflexivity | split; [reflexivity | split; [reflexivity |]]].
  split; [exact Hc |].
  apply (start_restores_a_synced_store allGood oneOrderWorld Hs eq_refl eq_refl
           eq_refl Hc).
Defined.

Lemma flushAll_eq wo wp wb wc w :
  flushAll wo wp wb wc w =
  (Ret tt,
   mkWorld (mem w)
     (mkDisk
        (after_write wo (map jsonOfObj (orders (mem w))) (ordersFile (fs w)))
        (after_write wp (jsonOf (products (mem w))) (productsFile (fs w)))
        (after_write wb (jsonOf (banners (mem w))) (bannersFile (fs w)))
        (after_write wc (Some (orderIdCounter (mem w))) (counterFile (fs w))))).
Proof.
  destruct w as [m [fo fp fb fc]]. unfold flushAll, bind.
  rewrite saveOrders_eq. cbn [mem fs]. rewrite saveProducts_eq. cbn [mem fs].
  rewrite saveBanners_eq. cbn [mem fs]. rewrite saveCounter_eq. reflexivity.
Qed.

(** X12.  A shutdown on SIGINT or SIGTERM whose four writes succeed,
    followed by a start, gives back the memory the process had (each
    collection as its JSON document), whatever the files held before,
    provided the directory is there, neither catalog value is one that
    is written as null (null or an infinite number) and the counter is
    not 0. *)
Theorem graceful_restart_restores_the_memory :
  forall (e : init_env) (w : world),
    mkdirOk e = true ->
    savedAsNull (products (mem w)) = false ->
    savedAsNull (banners (mem w)) = false ->
    counter w <> 0 ->
    let w' := step (GracefulReboot Written Written Written Written e) w in
    mem w' = jsonMemory (mem w) /\ inSync w'.
Proof.
  intros e w Hmk Hnp Hnb Hc0 w'. subst w'. cbn [step].
  rewrite flushAll_eq. cbn [snd fs after_write].
  assert (Hs : inSync
                 (mkWorld (mem w)
                    (mkDisk (Doc (map jsonOfObj (orders (mem w))))
                       (Doc (jsonOf (products (mem w))))
                       (Doc (jsonOf (banners (mem w))))
                       (Doc (Some (orderIdCounter (mem w)))))))
    by (repeat split).
  rewrite (start_on_written_files e _ _ Hs Hmk Hnp Hnb Hc0).
  split; [reflexivity | apply inSync_jsonMemory; exact Hs].
Qed.

Lemma graceful_restart_witness :
  mkdirOk allGood = true
  /\ savedAsNull (products (mem (mkWorld (mem twoOrderWorld) emptyDisk))) = false
  /\ savedAsNull (banners (mem (mkWorld (mem twoOrderWorld) emptyDisk))) = false
  /\ counter (mkWorld (mem twoOrderWorld) emptyDisk) <> 0
  /\ (let w' := step (GracefulReboot Written Written Written Written allGood)
                  (mkWorld (mem twoOrderWorld) emptyDisk) in
      mem w' = jsonMemory (mem twoOrderWorld) /\ inSync w').
Proof.
  assert (Hc : counter (mkWorld (mem twoOrderWorld) emptyDisk) <> 0)
    by discriminate.
  split; [reflexivity | split; [reflexivity | split; [reflexivity |]]].
  split; [exact Hc |].
  apply (graceful_restart_restores_the_memory allGood
           (mkWorld (mem twoOrderWorld) emptyDisk) eq_refl eq_refl eq_refl Hc).
Defined.

(** A catalog variable that holds an infinite number (a body
    {"products": 1e999} leaves it so) is not null but is written as
    null: the next start reads null from products.json, stops at the
    undeclared default, and the process ends in the callback of
    [app.listen]. *)
Example infinite_catalog_is_not_restored :
  let w := mkWorld (set_products (VInf false) (mem oneOrderWorld)) emptyDisk in
  let flushed := snd (flushAll Written Written Written Written w) in
  let w' := step (GracefulReboot Written Written Written Written allGood) w in
  nullish (products (mem w)) = false
  /\ savedAsNull (products (mem w)) = true
  /\ productsFile (fs flushed) = Doc VNull
  /\ products (mem w') = VNull
  /\ counter w = 1002
  /\ counter w' = 1001
  /\ launch allGood (fs flushed) = None.
Proof. cbv zeta. repeat split. Qed.

(** X13.  The four writes of a shutdown are independent: each file whose
    own write succeeds holds the document of its collection, whatever
    happens to the three other writes, and the memory does not change. *)
Theorem flushAll_writes_each_file_on_its_own :
  forall (wo wp wb wc : outcome) (w : world),
    let w' := snd (flushAll wo wp wb wc w) in
    mem w' = mem w
    /\ (succeeded wo = true ->
        ordersFile (fs w') = Doc (map jsonOfObj (orders (mem w))))
    /\ (succeeded wp = true ->
        productsFile (fs w') = Doc (jsonOf (products (mem w))))
    /\ (succeeded wb = true ->
        bannersFile (fs w') = Doc (jsonOf (banners (mem w))))
    /\ (succeeded wc = true ->
        counterFile (fs w') = Doc (Some (orderIdCounter (mem w)))).
Proof.
  intros wo wp wb wc w w'. subst w'. rewrite flushAll_eq.
  cbn [snd mem fs ordersFile productsFile bannersFile counterFile].
  split; [reflexivity |].
  destruct wo, wp, wb, wc; repeat split; discriminate.
Qed.

Lemma flushAll_witness :
  succeeded Written = true
  /\ (let w' := snd (flushAll FailedIntact FailedTruncated FailedIntact Written
                       oneOrderWorld) in
      mem w' = mem oneOrderWorld
      /\ counterFile (fs w') = Doc (Some 1002)).
Proof.
  split; [reflexivity |].
  pose proof (flushAll_writes_each_file_on_its_own FailedIntact FailedTruncated
                FailedIntact Written oneOrderWorld) as H.
  cbv zeta in H. destruct H as (Hm & _ & _ & _ & Hc).
  cbv zeta. split; [exact Hm | exact (Hc eq_refl)].
Defined.

(** ** Replacing the catalog *)

(** X14.  POST /api/data touches neither the orders nor the counter nor
    their files.  With a body that is not null it replaces both catalog
    variables before it writes, a missing or falsy [products] or
    [banners] by the empty array, and keeps the replacement when a write
    fails; it answers "Data saved successfully" exactly when both writes
    succeed and the 500 response otherwise. *)
Theorem postData_replaces_without_rollback :
  forall (reqBody : value) (wp wb : outcome) (w : world),
    let s := serve (PostData reqBody wp wb) w in
    orders (mem (snd s)) = orders (mem w)
    /\ counter (snd s) = counter w
    /\ ordersFile (fs (snd s)) = ordersFile (fs w)
    /\ counterFile (fs (snd s)) = counterFile (fs w)
    /\ (fst s = dataSaved \/ fst s = dataNotSaved)
    /\ (fst s = dataSaved <->
        nullish reqBody = false /\ succeeded wp && succeeded wb = true)
    /\ (nullish reqBody = false ->
        products (mem (snd s)) = or_else (get reqBody "products") (VArr [])
        /\ banners (mem (snd s)) = or_else (get reqBody "banners") (VArr [])
        /\ productsFile (fs (snd s))
           = after_write wp (jsonOf (products (mem (snd s)))) (productsFile (fs w))
        /\ bannersFile (fs (snd s))
           = after_write wb (jsonOf (banners (mem (snd s)))) (bannersFile (fs w)))
    /\ (nullish reqBody = true -> snd s = w).
Proof.
  intros reqBody wp wb w s. subst s. rewrite serve_postData.
  destruct (nullish reqBody).
  - cbn [fst snd]. repeat split; try discriminate.
    + right. reflexivity.
    + intros [H _]. discriminate H.
  - cbv zeta.
    cbn [fst snd mem fs set_products set_banners orders products banners counter
         orderIdCounter set_productsFile set_bannersFile ordersFile productsFile
         bannersFile counterFile].
    destruct (succeeded wp && succeeded wb); repeat split; try discriminate.
    + left. reflexivity.
    + right. reflexivity.
    + intros [_ H]. discriminate H.
Qed.

Lemma postData_witness :
  nullish (VObj []) = false
  /\ products (mem catalogWorld) = VArr someProducts
  /\ (let s := serve (PostData (VObj []) FailedIntact FailedIntact) catalogWorld in
      fst s = dataNotSaved
      /\ products (mem (snd s)) = VArr []
      /\ banners (mem (snd s)) = VArr []
      /\ productsFile (fs (snd s)) = Doc (VArr someProducts)).
Proof.
  split; [reflexivity | split; [reflexivity |]].
  pose proof (postData_replaces_without_rollback (VObj []) FailedIntact
                FailedIntact catalogWorld) as H.
  cbv zeta in H. destruct H as (_ & _ & _ & _ & _ & _ & Hrep & _).
  destruct (Hrep eq_refl) as (Hp & Hb & Hpf & _).
  cbv zeta. split; [reflexivity | split; [exact Hp | split; [exact Hb |]]].
  rewrite Hpf. reflexivity.
Defined.

(** ** The human-facing order id *)

Lemma decimal_injective n m : decimal n = decimal m -> n = m.
Proof.
  unfold decimal. intros H.
  assert (Hp : forall z, Z.to_int z <> Decimal.Pos Decimal.Nil).
  { intros [| q | q]; simpl; intros E; try discriminate E.
    injection E as E. exact (DecimalPos.Unsigned.to_uint_nonnil q E). }
  assert (Hn : forall z, Z.to_int z <> Decimal.Neg Decimal.Nil).
  { intros [| q | q]; simpl; intros E; try discriminate E.
    injection E as E. exact (DecimalPos.Unsigned.to_uint_nonnil q E). }
  apply (f_equal NilZero.int_of_string) in H.
  rewrite !NilZero.isi in H by auto.
  injection H as H. apply DecimalZ.to_int_inj. exact H.
Qed.

Lemma orderId_newOrder p id ms iso :
  lookup "orderId" (newOrder p id ms iso) = VStr ("ORD-" ++ decimal ms)%string.
Proof. reflexivity. Qed.

(** X15.  While the counter is a safe integer (from -2^53 to 2^53 - 1),
    two orders created one after the other differ in [id], and their
    [orderId] is the same exactly when [Date.now ()] returned the same
    millisecond for both: [orderId] is not a key.  The times are in the
    range of [Date.now ()], where a number prints as its decimal
    digits. *)
Theorem orderId_repeats_with_the_clock :
  forall (p1 p2 : value) (ms1 ms2 : Z) (iso1 iso2 : string)
         (wo1 wc1 wo2 wc2 : outcome) (w : world),
    passesValidation p1 = true ->
    passesValidation p2 = true ->
    validTime ms1 ->
    validTime ms2 ->
    safeCounter (counter w) ->
    let w1 := snd (serve (PostOrder p1 ms1 iso1 wo1 wc1) w) in
    let w2 := snd (serve (PostOrder p2 ms2 iso2 wo2 wc2) w1) in
    exists o1 o2,
      orders (mem w2) = orders (mem w) ++ [o1; o2]
      /\ lookup "id" o1 <> lookup "id" o2
      /\ (lookup "orderId" o1 = lookup "orderId" o2 <-> ms1 = ms2).
Proof.
  intros p1 p2 ms1 ms2 iso1 iso2 wo1 wc1 wo2 wc2 w Hv1 Hv2 _ _ Hsafe w1 w2.
  exists (newOrder p1 (counter w) ms1 iso1),
         (newOrder p2 (counter w + 1) ms2 iso2).
  assert (H1 : orders (mem w1) = orders (mem w) ++ [newOrder p1 (counter w) ms1 iso1]
               /\ counter w1 = counter w + 1).
  { subst w1. rewrite serve_postOrder, (postOrder_valid _ _ _ _ _ _ Hv1).
    cbn [snd mem withOrder orders orderIdCounter counter].
    split; [reflexivity | exact (increment_safe _ Hsafe)]. }
  destruct H1 as [Ho1 Hc1].
  split; [| split].
  - subst w2. rewrite serve_postOrder, (postOrder_valid _ _ _ _ _ _ Hv2).
    cbn [snd mem withOrder orders]. rewrite Ho1, Hc1, <- app_assoc. reflexivity.
  - change (VNum (counter w) <> VNum (counter w + 1)).
    intros H. injection H as H. lia.
  - rewrite !orderId_newOrder. split.
    + intros H. injection H as H. apply decimal_injective. exact H.
    + intros ->. reflexivity.
Qed.

Lemma orderId_witness :
  passesValidation scenarioPayload = true
  /\ validTime 1700000000000
  /\ safeCounter (counter (boot freshDisk))
  /\ (let w1 := snd (serve (PostOrder scenarioPayload 1700000000000 "t1" Written
                             Written) (boot freshDisk)) in
      let w2 := snd (serve (PostOrder scenarioPayload 1700000000000 "t2" Written
                             Written) w1) in
      exists o1 o2,
        orders (mem w2) = orders (mem (boot freshDisk)) ++ [o1; o2]
        /\ lookup "id" o1 <> lookup "id" o2
        /\ (lookup "orderId" o1 = lookup "orderId" o2
            <-> 1700000000000 = 1700000000000)).
Proof.
  assert (Ht : validTime 1700000000000) by (unfold validTime; lia).
  assert (Hs : safeCounter (counter (boot freshDisk))).
  { unfold safeCounter. split; [discriminate | reflexivity]. }
  split; [reflexivity | split; [exact Ht | split; [exact Hs |]]].
  apply (orderId_repeats_with_the_clock scenarioPayload scenarioPayload
           1700000000000 1700000000000 "t1" "t2" Written Written Written Written
           (boot freshDisk) eq_refl eq_refl Ht Ht Hs).
Defined.

(** ** The status route *)

Example message_length :
  lengthOf (VStr "🛍️ ShopZone API Running") (boot freshDisk)
  = (Ret (VNum 24), boot freshDisk).
Proof. reflexivity. Qed.

Lemma lengthOf_returns v w :
  nullish v = false -> exists n, lengthOf v w = (Ret n, w).
Proof.
  destruct v; try discriminate; intros _; eexists; reflexivity.
Qed.

Lemma lengthOf_throws v w :
  nullish v = true -> exists e, lengthOf v w = (Throw e, w).
Proof.
  destruct v; try discriminate; intros _; eexists; reflexivity.
Qed.

Lemma or_else_not_nullish a b : nullish b = false -> nullish (or_else a b) = false.
Proof.
  intros Hb. unfold or_else. destruct (truthy a) eqn:Ha; [| exact Hb].
  destruct a; try reflexivity; discriminate Ha.
Qed.

Lemma serve_keeps_catalog r w :
  nullish (products (mem w)) = false ->
  nullish (banners (mem w)) = false ->
  nullish (products (mem (snd (serve r w)))) = false
  /\ nullish (banners (mem (snd (serve r w)))) = false.
Proof.
  intros Hp Hb.
  destruct r as [| reqBody wp wb | | p ms iso wo wc | id | id reqBody wo | id wo].
  - destruct w; split; assumption.
  - rewrite serve_postData. destruct (nullish reqBody); [split; assumption |].
    cbv zeta. cbn [snd mem set_products set_banners products banners].
    split; apply or_else_not_nullish; reflexivity.
  - destruct w; split; assumption.
  - destruct (serve_postOrder_eq p ms iso wo wc w) as [[_ ->] | [_ ->]];
      split; assumption.
  - rewrite getOrder_eq. split; assumption.
  - rewrite putOrder_eq.
    destruct (findOrder id (orders (mem w))); [| split; assumption].
    destruct (nullish reqBody); split; assumption.
  - rewrite deleteOrder_eq.
    destruct (findIndex id (orders (mem w))); split; assumption.
Qed.

Lemma requests_keep_catalog rs :
  forall w,
    nullish (products (mem w)) = false ->
    nullish (banners (mem w)) = false ->
    nullish (products (mem (exec (map Request rs) w))) = false
    /\ nullish (banners (mem (exec (map Request rs) w))) = false.
Proof.
  induction rs as [| r rs IH]; intros w Hp Hb; [split; assumption |].
  cbn [map exec step].
  destruct (serve_keeps_catalog r w Hp Hb) as [Hp' Hb'].
  apply IH; assumption.
Qed.

(** The process serves exactly when neither catalog variable is null
    after [initializeStorage], and then from the store that left. *)
Lemma launch_cases e d :
  (nullish (products (mem (start e d))) = false
   /\ nullish (banners (mem (start e d))) = false
   /\ launch e d = Some (start e d))
  \/ ((nullish (products (mem (start e d))) = true
       \/ nullish (banners (mem (start e d))) = true)
      /\ launch e d = None).
Proof.
  unfold launch, listenCallback, bind, readMem.
  destruct (start e d) as [[l p b c] dk]. cbn [mem products banners orders].
  destruct (nullish p) eqn:Hp.
  - right. split; [left; reflexivity |].
    destruct (lengthOf_throws p (mkWorld (mkMemory l p b c) dk) Hp) as [x ->].
    reflexivity.
  - destruct (lengthOf_returns p (mkWorld (mkMemory l p b c) dk) Hp) as [n ->].
    cbv beta iota. cbn [mem banners].
    destruct (nullish b) eqn:Hb.
    + right. split; [right; reflexivity |].
      destruct (lengthOf_throws b (mkWorld (mkMemory l p b c) dk) Hb) as [x ->].
      reflexivity.
    + left. split; [reflexivity | split; [reflexivity |]].
      destruct (lengthOf_returns b (mkWorld (mkMemory l p b c) dk) Hb) as [n' ->].
      reflexivity.
Qed.

(** X16.  In a process that got as far as serving, after any sequence of
    requests, GET / changes nothing and answers 200 with [totalOrders]
    the number of orders in memory and [nextOrderId] the counter, which
    is the id the next valid POST /api/orders gives its order.  The
    process gets that far exactly when neither products nor banners is
    null after [initializeStorage]: the callback of [app.listen] reads
    their length, and a products.json holding null makes it throw. *)
Theorem root_reports_the_next_id :
  forall (nowIso : string) (e : init_env) (d : disk),
    (forall rs w0,
        launch e d = Some w0 ->
        let w := exec (map Request rs) w0 in
        exists r,
          getRoot nowIso w = (Ret r, w)
          /\ status r = 200
          /\ stat r "totalOrders" = VNum (Z.of_nat (List.length (orders (mem w))))
          /\ stat r "nextOrderId" = VNum (counter w)
          /\ forall p ms iso wo wc,
              passesValidation p = true ->
              orderIds (snd (serve (PostOrder p ms iso wo wc) w))
              = orderIds w ++ [stat r "nextOrderId"])
    /\ (launch e d = None <->
        nullish (products (mem (start e d))) = true
        \/ nullish (banners (mem (start e d))) = true).
Proof.
  intros nowIso e d. split.
  - intros rs w0 Hl w.
    destruct (launch_cases e d) as [(Hp0 & Hb0 & Hs) | [_ Hn]];
      [| rewrite Hn in Hl; discriminate Hl].
    rewrite Hs in Hl. injection Hl as <-.
    destruct (requests_keep_catalog rs (start e d) Hp0 Hb0) as [Hp Hb].
    fold w in Hp, Hb. clearbody w. destruct w as [[l p b c] dk].
    cbn [mem products banners] in Hp, Hb.
    destruct (lengthOf_returns p (mkWorld (mkMemory l p b c) dk) Hp) as [np Enp].
    destruct (lengthOf_returns b (mkWorld (mkMemory l p b c) dk) Hb) as [nb Enb].
    eexists. split.
    + unfold getRoot, bind, readMem. cbn [mem products banners orders orderIdCounter].
      rewrite Enp. cbv beta iota. cbn [mem banners]. rewrite Enb. reflexivity.
    + split; [reflexivity | split; [reflexivity | split; [reflexivity |]]].
      intros q ms iso wo wc Hv.
      rewrite serve_postOrder, (postOrder_valid _ _ _ _ _ _ Hv).
      unfold orderIds. cbn [snd mem withOrder orders]. rewrite map_app.
      reflexivity.
  - destruct (launch_cases e d) as [(Hp0 & Hb0 & Hs) | [Hn Hl]]; rewrite ?Hs, ?Hl.
    + split; [discriminate |]. rewrite Hp0, Hb0. intros [H | H]; discriminate H.
    + split; [intros _; exact Hn | reflexivity].
Qed.

Lemma root_witness :
  launch allGood freshDisk = Some (boot freshDisk)
  /\ (exists r,
        getRoot "t" oneOrderWorld = (Ret r, oneOrderWorld)
        /\ stat r "totalOrders" = VNum 1
        /\ stat r "nextOrderId" = VNum 1002
        /\ orderIds (snd (serve (PostOrder scenarioPayload 6 "t2" Written Written)
                            oneOrderWorld))
           = [VNum 1001; VNum 1002])
  /\ products (mem (start allGood nullProductsDisk)) = VNull
  /\ launch allGood nullProductsDisk = None.
Proof.
  split; [reflexivity |].
  destruct (proj1 (root_reports_the_next_id "t" allGood freshDisk)
              [PostOrder scenarioPayload 5 "t1" Written Written]
              (boot freshDisk) eq_refl)
    as (r & Er & _ & Ht & Hn & Hnext).
  split.
  - exists r. split; [exact Er | split; [exact Ht | split; [exact Hn |]]].
    change (exec (map Request [PostOrder scenarioPayload 5 "t1" Written Written])
              (boot freshDisk)) with oneOrderWorld in Hnext.
    rewrite (Hnext scenarioPayload 6 "t2" Written Written eq_refl), Hn.
    reflexivity.
  - split; [reflexivity |].
    apply (proj2 (root_reports_the_next_id "t" allGood nullProductsDisk)).
    left. reflexivity.
Defined.

(** ** What a payload cannot do *)

(** X17.  The order POST /api/orders builds depends on the payload only
    through items, totalAmount, paymentMethod, notes, three properties
    of customer and six of address: two valid payloads that agree on
    these get the same answer and leave the same store, so an id, a
    status or any other property sent along is ignored. *)
Theorem extra_payload_fields_are_ignored :
  forall (p p' : value) (ms : Z) (iso : string) (wo wc : outcome) (w : world),
    sameOrderFields p p' ->
    passesValidation p = true ->
    passesValidation p' = true ->
    serve (PostOrder p ms iso wo wc) w = serve (PostOrder p' ms iso wo wc) w.
Proof.
  intros p p' ms iso wo wc w (Hi & Ht & Hpm & Hn & Hc & Ha) Hv Hv'.
  assert (E : newOrder p (counter w) ms iso = newOrder p' (counter w) ms iso).
  { unfold newOrder. rewrite Hi, Ht, Hpm, Hn.
    rewrite (Hc "fullName"), (Hc "phone"), (Hc "email") by (simpl; tauto).
    rewrite (Ha "houseNo"), (Ha "street"), (Ha "city"), (Ha "state"),
      (Ha "pincode"), (Ha "landmark") by (simpl; tauto).
    reflexivity. }
  rewrite !serve_postOrder.
  rewrite (postOrder_valid _ _ _ _ _ _ Hv), (postOrder_valid _ _ _ _ _ _ Hv').
  cbv zeta. rewrite E. reflexivity.
Qed.

Lemma extra_payload_fields_witness :
  sameOrderFields scenarioPayload decoratedPayload
  /\ passesValidation scenarioPayload = true
  /\ passesValidation decoratedPayload = true
  /\ serve (PostOrder scenarioPayload 5 "t1" Written Written) (boot freshDisk)
     = serve (PostOrder decoratedPayload 5 "t1" Written Written) (boot freshDisk).
Proof.
  assert (Hs : sameOrderFields scenarioPayload decoratedPayload).
  { do 4 (split; [reflexivity |]). split.
    - intros k [<- | [<- | [<- | []]]]; reflexivity.
    - intros k [<- | [<- | [<- | [<- | [<- | [<- | []]]]]]]; reflexivity. }
  split; [exact Hs | split; [reflexivity | split; [reflexivity |]]].
  apply (extra_payload_fields_are_ignored scenarioPayload decoratedPayload 5 "t1"
           Written Written (boot freshDisk) Hs eq_refl eq_refl).
Defined.

(** ** Updating twice, and reading back *)

(** X18.  The order a PUT /api/orders/:id answers with is the order a
    GET for the same id returns afterwards. *)
Theorem put_then_get :
  forall (id : Z) (reqBody : value) (wo : outcome) (w : world)
         (before after : list obj) (o : obj),
    orders (mem w) = before ++ o :: after ->
    lookup "id" o = VNum id ->
    (forall x, In x before -> lookup "id" x <> VNum id) ->
    nullish reqBody = false ->
    let s := serve (PutOrder (Some id) reqBody wo) w in
    fst s = updated (applyUpdate reqBody o)
    /\ serve (GetOrder (Some id)) (snd s)
       = (json (VObj (applyUpdate reqBody o)), snd s).
Proof.
  intros id reqBody wo w before after o Ho Hid Hb Hn s. subst s.
  rewrite putOrder_eq, Ho, (findOrder_first id before after o Hid Hb), Hn.
  cbv zeta. rewrite (updateFirst_first id before after o Hid Hb).
  cbn [fst snd]. split; [reflexivity |].
  rewrite getOrder_eq. cbn [mem set_orders orders].
  rewrite (findOrder_first id before after (applyUpdate reqBody o));
    [reflexivity | | exact Hb].
  rewrite lookup_id_applyUpdate. exact Hid.
Qed.

Lemma put_then_get_witness :
  orders (mem oneOrderWorld) = [] ++ firstOrder :: []
  /\ lookup "id" firstOrder = VNum 1001
  /\ nullish shippedBody = false
  /\ (let s := serve (PutOrder (Some 1001) shippedBody FailedIntact) oneOrderWorld in
      fst s = updated (applyUpdate shippedBody firstOrder)
      /\ serve (GetOrder (Some 1001)) (snd s)
         = (json (VObj (applyUpdate shippedBody firstOrder)), snd s)).
Proof.
  split; [reflexivity | split; [reflexivity | split; [reflexivity |]]].
  apply (put_then_get 1001 shippedBody FailedIntact oneOrderWorld [] [] firstOrder
           eq_refl eq_refl (fun x (Hx : In x []) => False_ind _ Hx) eq_refl).
Defined.

Lemma assign_twice k v v' o : assign k v (assign k v' o) = assign k v o.
Proof.
  induction o as [| [k0 v0] rest IH]; simpl.
  - rewrite String.eqb_refl. reflexivity.
  - destruct (String.eqb k k0) eqn:E; simpl.
    + rewrite String.eqb_refl. reflexivity.
    + rewrite E, IH. reflexivity.
Qed.

Lemma assign_has_key k v o : In k (map fst (assign k v o)).
Proof.
  induction o as [| [k0 v0] rest IH]; simpl.
  - left. reflexivity.
  - destruct (String.eqb k k0); simpl; [left; reflexivity | right; exact IH].
Qed.

Lemma assign_swap k k' v v' o :
  k <> k' -> In k (map fst o) ->
  assign k v (assign k' v' o) = assign k' v' (assign k v o).
Proof.
  intros Hne. induction o as [| [k0 v0] rest IH]; intros Hin; [destruct Hin |].
  simpl. destruct (String.eqb k k0) eqn:E, (String.eqb k' k0) eqn:E'; simpl.
  - apply String.eqb_eq in E, E'. congruence.
  - apply String.eqb_eq in E. subst k0.
    rewrite String.eqb_refl.
    assert (Hk : String.eqb k' k = false) by (apply String.eqb_neq; congruence).
    rewrite Hk. reflexivity.
  - apply String.eqb_eq in E'. subst k0.
    rewrite String.eqb_refl.
    assert (Hk : String.eqb k k' = false) by (apply String.eqb_neq; exact Hne).
    rewrite Hk. reflexivity.
  - rewrite E, E'. f_equal. apply IH.
    destruct Hin as [Hk | Hin]; [| exact Hin].
    simpl in Hk. subst k0. rewrite String.eqb_refl in E. discriminate E.
Qed.

Lemma applyUpdate_idempotent reqBody o :
  applyUpdate reqBody (applyUpdate reqBody o) = applyUpdate reqBody o.
Proof.
  unfold applyUpdate.
  destruct (truthy (get reqBody "status")); destruct (get reqBody "notes");
    try reflexivity; try apply assign_twice;
    rewrite (assign_swap "status" "notes" _ _ (assign "status" _ o))
      by (try discriminate; apply assign_has_key);
    rewrite !assign_twice; reflexivity.
Qed.

Lemma updateFirst_idempotent id reqBody l :
  updateFirst id (applyUpdate reqBody) (updateFirst id (applyUpdate reqBody) l)
  = updateFirst id (applyUpdate reqBody) l.
Proof.
  induction l as [| o l IH]; [reflexivity |]. simpl.
  destruct (strict_eq_num (lookup "id" o) id) eqn:E; simpl.
  - rewrite lookup_id_applyUpdate, E, applyUpdate_idempotent. reflexivity.
  - rewrite E, IH. reflexivity.
Qed.

Lemma findOrder_updateFirst id reqBody l :
  findOrder id (updateFirst id (applyUpdate reqBody) l)
  = option_map (applyUpdate reqBody) (findOrder id l).
Proof.
  unfold findOrder. induction l as [| o l IH]; [reflexivity |]. simpl.
  destruct (strict_eq_num (lookup "id" o) id) eqn:E; simpl.
  - rewrite lookup_id_applyUpdate, E. reflexivity.
  - rewrite E. exact IH.
Qed.

(** X19.  PUT /api/orders/:id is idempotent: sent a second time with the
    same body it gives the same answer and leaves the memory the first
    one left, whether the order exists or not and whatever the writes
    do. *)
Theorem put_twice_is_put_once :
  forall (id : option Z) (reqBody : value) (wo wo' : outcome) (w : world),
    let s1 := serve (PutOrder id reqBody wo) w in
    let s2 := serve (PutOrder id reqBody wo') (snd s1) in
    fst s2 = fst s1 /\ mem (snd s2) = mem (snd s1).
Proof.
  intros id reqBody wo wo' w s1 s2. subst s2 s1.
  rewrite (putOrder_eq id reqBody wo w).
  destruct (findOrder id (orders (mem w))) as [o |] eqn:Ef.
  - destruct (nullish reqBody) eqn:Hn.
    + cbn [snd]. rewrite putOrder_eq, Ef, Hn. split; reflexivity.
    + cbv zeta. cbn [snd]. rewrite putOrder_eq.
      cbn [mem set_orders orders].
      rewrite findOrder_updateFirst, Ef. cbn [option_map]. rewrite Hn.
      cbv zeta. cbn [fst snd mem set_orders orders products banners orderIdCounter].
      rewrite applyUpdate_idempotent, updateFirst_idempotent.
      split; reflexivity.
  - cbn [snd]. rewrite putOrder_eq, Ef. split; reflexivity.
Qed.

(** ** The catalog through the files, again (C9) *)

(** C9, as the code has it.  For arrays P and B of JSON values that
    hold no infinite number: a POST /api/data with products P and
    banners B that reports success, followed by a start of the process
    on the same files (the data directory being usable), leaves a
    process that serves and whose GET /api/data returns (P, B). *)
Theorem C9_catalog_round_trip :
  forall (P B : list value) (reqBody : value) (wp wb : outcome) (w : world)
         (e : init_env),
    get reqBody "products" = VArr P ->
    get reqBody "banners" = VArr B ->
    is_json (VArr P) = true ->
    is_json (VArr B) = true ->
    let s := serve (PostData reqBody wp wb) w in
    status (fst s) = 200 ->
    mkdirOk e = true ->
    let w' := start e (fs (snd s)) in
    fst (getData w') = Ret (json (VObj [("products", VArr P); ("banners", VArr B)]))
    /\ products (mem w') = VArr P
    /\ banners (mem w') = VArr B
    /\ launch e (fs (snd s)) = Some w'.
Proof.
  intros P B reqBody wp wb w e HP HB HjP HjB s Hst Hmk w'.
  assert (Hn : nullish reqBody = false).
  { destruct reqBody; try reflexivity; discriminate HP. }
  assert (Hfs : productsFile (fs (snd s)) = Doc (VArr P)
                /\ bannersFile (fs (snd s)) = Doc (VArr B)).
  { subst s. revert Hst. unfold serve, handle.
    rewrite (postData_eq reqBody wp wb w Hn). rewrite HP, HB.
    unfold or_else. cbn [truthy fst snd fs mem set_products set_banners products
                         banners].
    rewrite (jsonOf_json _ HjP), (jsonOf_json _ HjB).
    destruct wp, wb; cbn; try discriminate; intros _; split; reflexivity. }
  destruct Hfs as [Hp Hb].
  assert (Hmem : products (mem w') = VArr P /\ banners (mem w') = VArr B).
  { subst w'. destruct e as [mk wo wp' wb' wc]. cbn [mkdirOk] in Hmk. subst mk.
    destruct (fs (snd s)) as [fo fp fb fc]. cbn [productsFile bannersFile] in Hp, Hb.
    subst fp fb.
    run_start; destruct fo; run_start; cbn [nullish]; run_start;
      destruct fc; split; reflexivity. }
  destruct Hmem as [Hmp Hmb].
  split; [| split; [exact Hmp | split; [exact Hmb |]]].
  - unfold getData, bind, readMem, ret. cbn [fst]. rewrite Hmp, Hmb. reflexivity.
  - destruct (launch_cases e (fs (snd s))) as [(_ & _ & Hl) | [[Hx | Hx] _]].
    + exact Hl.
    + fold w' in Hx. rewrite Hmp in Hx. discriminate Hx.
    + fold w' in Hx. rewrite Hmb in Hx. discriminate Hx.
Qed.

Lemma C9_witness :
  get catalogBody "products" = VArr someProducts
  /\ get catalogBody "banners" = VArr someBanners
  /\ is_json (VArr someProducts) = true
  /\ is_json (VArr someBanners) = true
  /\ status (fst (serve (PostData catalogBody Written Written) (boot emptyDisk))) = 200
  /\ mkdirOk allGood = true
  /\ (let s := serve (PostData catalogBody Written Written) (boot emptyDisk) in
      let w' := start allGood (fs (snd s)) in
      fst (getData w')
      = Ret (json (VObj [("products", VArr someProducts);
                         ("banners", VArr someBanners)]))
      /\ products (mem w') = VArr someProducts
      /\ banners (mem w') = VArr someBanners
      /\ launch allGood (fs (snd s)) = Some w').
Proof.
  do 6 (split; [reflexivity |]).
  apply (C9_catalog_round_trip someProducts someBanners catalogBody Written Written
           (boot emptyDisk) allGood); reflexivity.
Defined.

(** C9 as stated fails for a catalog with an infinite number.  The body
    {"products": [{"name": "Lamp", "price": 1e999}], "banners": []} is
    parsed with price Infinity; the POST answers success and memory
    holds Infinity, products.json is written with price null, and after
    the next start GET /api/data returns price null. *)
Lemma C9_counterexample :
  let s := serve (PostData overflowBody Written Written) (boot freshDisk) in
  let w' := start allGood (fs (snd s)) in
  get overflowBody "products" = VArr overflowProducts
  /\ get overflowBody "banners" = VArr []
  /\ isParsed overflowBody = true
  /\ fst s = dataSaved
  /\ products (mem (snd s)) = VArr overflowProducts
  /\ productsFile (fs (snd s))
     = Doc (VArr [VObj [("name", VStr "Lamp"); ("price", VNull)]])
  /\ launch allGood (fs (snd s)) = Some w'
  /\ fst (getData w')
     = Ret (json (VObj [("products",
                         VArr [VObj [("name", VStr "Lamp"); ("price", VNull)]]);
                        ("banners", VArr [])]))
  /\ fst (getData w')
     <> Ret (json (VObj [("products", VArr overflowProducts);
                         ("banners", VArr [])])).
Proof.
  cbv zeta. do 8 (split; [reflexivity |]). discriminate.
Qed.

(** ** The log line of a created order (line 199) *)

(** A totalAmount that cannot be concatenated: the order is pushed, both
    files are written, the counter moves on, and the answer is the 400
    of the [catch] block, without the order. *)
Example unprintable_amount :
  let s := serve (PostOrder unprintablePayload 5 "t1" Written Written)
             (boot freshDisk) in
  passesValidation unprintablePayload = true
  /\ fst s = amountNotPrintable
  /\ orderIds (snd s) = [VNum 1001]
  /\ counter (snd s) = 1002
  /\ ordersFile (fs (snd s)) = Doc (map jsonOfObj (orders (mem (snd s))))
  /\ counterFile (fs (snd s)) = Doc (Some 1002).
Proof. cbv zeta. repeat split. Qed.

(** ** Ids across requests and restarts (C1, C4) *)

Lemma afterOrders_files e d :
  productsFile (fs (afterOrders e d)) = productsFile d
  /\ bannersFile (fs (afterOrders e d)) = bannersFile d
  /\ counterFile (fs (afterOrders e d)) = counterFile d.
Proof.
  unfold afterOrders. destruct d as [fo fp fb fc]. cbn [ordersFile].
  destruct fo; repeat split.
Qed.




Lemma start_reads_catalog e d p b :
  mkdirOk e = true ->
  productsFile d = Doc p -> nullish p = false ->
  bannersFile d = Doc b -> nullish b = false ->
  products (mem (start e d)) = p /\ banners (mem (start e d)) = b.
Proof.
  intros Hmk Hp Hnp Hb Hnb. rewrite start_eq, Hmk.
  destruct (afterOrders_files e d) as (Ep & Eb & Ec).
  unfold afterProducts. rewrite Ep, Hp, Hnp. cbv zeta.
  unfold afterBanners. cbn [fs]. rewrite Eb, Hb, Hnb. cbv zeta.
  unfold afterCounter. cbn [fs].
  destruct (counterFile (fs (afterOrders e d))); split; reflexivity.
Qed.

(** A start that finds the counter leaves a process that serves. *)
Lemma restart_launches e w :
  mkdirOk e = true -> counterOnDisk w -> launch e (fs w) = Some (start e (fs w)).
Proof.
  intros Hmk (_ & (p & Hp & Hnp) & (b & Hb & Hnb)).
  destruct (start_reads_catalog e (fs w) p b Hmk Hp Hnp Hb Hnb) as [Ep Eb].
  destruct (launch_cases e (fs w)) as [(_ & _ & Hl) | [[Hx | Hx] _]];
    [exact Hl | rewrite Ep in Hx | rewrite Eb in Hx]; congruence.
Qed.

Lemma restartFindsCounter_launches ev w : restartFindsCounter ev w -> launches ev w.
Proof.
  destruct ev as [r | e | wo wp wb wc e]; cbn [restartFindsCounter launches step].
  - intros _. exact I.
  - intros [Hmk H]. apply restart_launches; assumption.
  - intros [Hmk H]. apply restart_launches; assumption.
Qed.

(** A creation answered 201 leaves the counter in counter.json, next
    to the catalog files it found. *)
Lemma created_leaves_counter_on_disk p ms iso wo wc w :
  status (fst (serve (PostOrder p ms iso wo wc) w)) = 201 ->
  (exists x, productsFile (fs w) = Doc x /\ nullish x = false) ->
  (exists b, bannersFile (fs w) = Doc b /\ nullish b = false) ->
  counterOnDisk (snd (serve (PostOrder p ms iso wo wc) w)).
Proof.
  intros Hst Hp Hb. revert Hst. rewrite serve_postOrder.
  destruct (nullish p) eqn:Hn.
  - destruct (postOrder_nullish p ms iso wo wc w Hn) as [msg ->]. discriminate.
  - destruct (passesValidation p) eqn:Hv.
    + rewrite (postOrder_valid _ _ _ _ _ _ Hv). cbn [fst snd]. unfold answerOf.
      destruct wo, wc; cbn [succeeded andb]; try discriminate.
      intros _. destruct w as [m [fo fp fb fc]].
      cbn [fs productsFile bannersFile] in Hp, Hb.
      split; [reflexivity | split; assumption].
    + rewrite (postOrder_invalid _ _ _ _ _ _ Hn Hv). discriminate.
Qed.












